(** * Prompt Engineer Evaluator: the extraction-and-validation flow

    A shallow embedding of [src/ai/flows/extract-and-validate-feedback.ts]
    (the Genkit flow, its error-containing wrapper and the Zod schema it
    validates against), of the dashboard's [runEvaluation] caller, and of
    the variant of the flow that parses line by line.

    JavaScript strings are sequences of UTF-16 code units, values are the
    JSON universe extended with [undefined], and a call that can throw
    returns an [outcome]. *)

From Stdlib Require Import NArith ZArith Bool List String Ascii Lia.
From stdpp Require Import base option list gmap.

Set Default Proof Using "Type".
Set Warnings "-register-all".

(** ** The JavaScript runtime the flow relies on *)

Module JS.

(** A string is its sequence of UTF-16 code units. *)
Definition jsstring := list N.

(** An ASCII literal as a JavaScript string. *)
Definition str (s : string) : jsstring :=
  map N_of_ascii (list_ascii_of_string s).

Fixpoint eqb_str (a b : jsstring) : bool :=
  match a, b with
  | [], [] => true
  | x :: a', y :: b' => N.eqb x y && eqb_str a' b'
  | _, _ => false
  end.

(** [WhiteSpace] and [LineTerminator] code points of ECMAScript, the
    characters [String.prototype.trim] strips. *)
Definition isWhiteSpace (c : N) : bool :=
  existsb (N.eqb c)
    [9; 10; 11; 12; 13; 32; 160; 5760; 8232; 8233; 8239; 8287; 12288; 65279]%N
  || ((8192 <=? c) && (c <=? 8202))%N.

Fixpoint trimStart (s : jsstring) : jsstring :=
  match s with
  | c :: r => if isWhiteSpace c then trimStart r else s
  | [] => []
  end.

Definition trimEnd (s : jsstring) : jsstring := rev (trimStart (rev s)).

Definition trim (s : jsstring) : jsstring := trimEnd (trimStart s).

(** [s.split(sep)] for a one-unit separator: never the empty list, the
    empty string splits into one empty piece. *)
Fixpoint split (sep : N) (s : jsstring) : list jsstring :=
  match s with
  | [] => [[]]
  | c :: r =>
      if N.eqb c sep then [] :: split sep r
      else match split sep r with
           | piece :: pieces => (c :: piece) :: pieces
           | [] => [[c]]
           end
  end.

(** A number as the decimal it was read from: (-1)^negative * digits *
    10^exp10. The runtime rounds it to binary64; the flow only observes
    whether the rounded number is zero. *)
Record number := mkNumber {
  num_negative : bool;
  num_digits : N;
  num_exp10 : Z
}.

(** The decimal rounds to (plus or minus) zero: it is zero, or it lies at
    or below half the least subnormal, 2^-1075. *)
Definition rounds_to_zero (n : number) : bool :=
  N.eqb (num_digits n) 0
  || ((num_exp10 n <? 0)
      && (Z.of_N (num_digits n) * 2 ^ 1075 <=? 10 ^ (- num_exp10 n)))%Z.

Inductive value :=
| VUndefined
| VNull
| VBool (b : bool)
| VNumber (n : number)
| VString (s : jsstring)
| VArray (items : list value)
| VObject (props : list (jsstring * value)).

Inductive jstype :=
  TUndefined | TObject | TBoolean | TNumber | TString.

Definition typeof (v : value) : jstype :=
  match v with
  | VUndefined => TUndefined
  | VNull => TObject
  | VBool _ => TBoolean
  | VNumber _ => TNumber
  | VString _ => TString
  | VArray _ => TObject
  | VObject _ => TObject
  end.

Definition isArray (v : value) : bool :=
  match v with VArray _ => true | _ => false end.

(** [ToBoolean]: what [if (v)], [v && ...] and [v || ...] test. *)
Definition truthy (v : value) : bool :=
  match v with
  | VUndefined | VNull => false
  | VBool b => b
  | VNumber n => negb (rounds_to_zero n)
  | VString s => match s with [] => false | _ => true end
  | VArray _ | VObject _ => true
  end.

(** Property read [o[k]] on an object's own properties. *)
Fixpoint get (props : list (jsstring * value)) (k : jsstring) : value :=
  match props with
  | [] => VUndefined
  | (k', v) :: rest => if eqb_str k' k then v else get rest k
  end.

(** Property write: an existing key keeps its place, a new one goes
    last. *)
Fixpoint set (props : list (jsstring * value)) (k : jsstring) (v : value)
  : list (jsstring * value) :=
  match props with
  | [] => [(k, v)]
  | (k', v') :: rest =>
      if eqb_str k' k then (k', v) :: rest else (k', v') :: set rest k v
  end.

(** [arr[i]]: [undefined] past the end. *)
Definition index (arr : list value) (i : nat) : value :=
  default VUndefined (arr !! i).

(** A call either returns or throws. *)
Inductive outcome (E A : Type) :=
| Ret (a : A)
| Throw (e : E).
Arguments Ret {E A} a.
Arguments Throw {E A} e.

Definition bind {E A B} (m : outcome E A) (k : A -> outcome E B)
  : outcome E B :=
  match m with
  | Ret a => k a
  | Throw e => Throw e
  end.

(** [try { body } catch (e) { handler }] *)
Definition try_catch {E E' A} (body : outcome E A)
  (handler : E -> outcome E' A) : outcome E' A :=
  match body with
  | Ret a => Ret a
  | Throw e => handler e
  end.

End JS.

Export JS.

Notation "'let!' x ':=' m 'in' k" := (bind m (fun x => k))
  (at level 10, x name, m at level 100, k at level 200).

(** A callback that may throw, run over a list from left to right. *)
Definition mapM {E A B} (f : A -> outcome E B)
  : list A -> outcome E (list B) :=
  fix go (l : list A) :=
    match l with
    | [] => Ret []
    | x :: rest =>
        let! y := f x in
        let! ys := go rest in
        Ret (y :: ys)
    end.

(** ** [JSON.parse] *)

Module JSON.

Inductive SyntaxError := mkSyntaxError.

Definition isJsonSpace (c : N) : bool :=
  existsb (N.eqb c) [9; 10; 13; 32]%N.

Fixpoint skip_ws (s : jsstring) : jsstring :=
  match s with
  | c :: r => if isJsonSpace c then skip_ws r else s
  | [] => []
  end.

Definition digit_of (c : N) : option N :=
  if ((48 <=? c) && (c <=? 57))%N then Some (c - 48)%N else None.

Definition hex_of (c : N) : option N :=
  if ((48 <=? c) && (c <=? 57))%N then Some (c - 48)%N
  else if ((97 <=? c) && (c <=? 102))%N then Some (c - 87)%N
  else if ((65 <=? c) && (c <=? 70))%N then Some (c - 55)%N
  else None.

(** The character a one-letter escape stands for. *)
Definition escape_of (c : N) : option N :=
  match c with
  | 34 => Some 34 | 92 => Some 92 | 47 => Some 47
  | 98 => Some 8 | 102 => Some 12 | 110 => Some 10
  | 114 => Some 13 | 116 => Some 9
  | _ => None
  end%N.

(** The characters of a string literal after its opening quote, up to and
    including the closing quote. *)
Fixpoint read_string (s : jsstring) : option (jsstring * jsstring) :=
  match s with
  | [] => None
  | c :: r =>
      if N.eqb c 34 then Some ([], r)
      else if N.eqb c 92 then
        match r with
        | [] => None
        | e :: r1 =>
            if N.eqb e 117 then
              match r1 with
              | h1 :: h2 :: h3 :: h4 :: r2 =>
                  match hex_of h1, hex_of h2, hex_of h3, hex_of h4 with
                  | Some a, Some b, Some c', Some d =>
                      match read_string r2 with
                      | Some (body, rest) =>
                          Some ((a * 4096 + b * 256 + c' * 16 + d)%N :: body,
                                rest)
                      | None => None
                      end
                  | _, _, _, _ => None
                  end
              | _ => None
              end
            else
              match escape_of e with
              | Some x =>
                  match read_string r1 with
                  | Some (body, rest) => Some (x :: body, rest)
                  | None => None
                  end
              | None => None
              end
        end
      else if (c <? 32)%N then None
      else
        match read_string r with
        | Some (body, rest) => Some (c :: body, rest)
        | None => None
        end
  end.

(** A maximal run of decimal digits: its value, its length, the rest. *)
Fixpoint read_digits (acc : N) (len : nat) (s : jsstring)
  : N * nat * jsstring :=
  match s with
  | c :: r =>
      match digit_of c with
      | Some d => read_digits (acc * 10 + d)%N (S len) r
      | None => (acc, len, s)
      end
  | [] => (acc, len, [])
  end.

(** The text after a leading [c], if [s] starts with [c]. *)
Definition after (c : N) (s : jsstring) : option jsstring :=
  match s with
  | x :: r => if N.eqb x c then Some r else None
  | [] => None
  end.

(** The integer part: a lone zero, or digits that do not start with
    zero. *)
Definition read_int (s : jsstring) : option (N * jsstring) :=
  match after 48 s with
  | Some r => Some (0%N, r)
  | None =>
      match read_digits 0 0 s with
      | (_, 0, _) => None
      | (v, S _, r) => Some (v, r)
      end
  end.

(** The fraction, read on top of the integer part [i]: the digits and
    how many they are. *)
Definition read_frac (i : N) (s : jsstring) : option (N * nat * jsstring) :=
  match after 46 s with
  | Some r =>
      match read_digits i 0 r with
      | (_, 0, _) => None
      | (v, S len, r') => Some (v, S len, r')
      end
  | None => Some (i, 0, s)
  end.

Definition read_exp (s : jsstring) : option (Z * jsstring) :=
  match s with
  | c :: r =>
      if N.eqb c 101 || N.eqb c 69 then
        let '(negative, r1) :=
          match after 45 r, after 43 r with
          | Some r', _ => (true, r')
          | None, Some r' => (false, r')
          | None, None => (false, r)
          end in
        match read_digits 0 0 r1 with
        | (_, 0, _) => None
        | (e, S _, r2) =>
            Some ((if negative then - Z.of_N e else Z.of_N e)%Z, r2)
        end
      else Some (0%Z, s)
  | [] => Some (0%Z, s)
  end.

(** [-? int frac? exp?] *)
Definition read_number (s : jsstring) : option (number * jsstring) :=
  let '(negative, s1) :=
    match after 45 s with
    | Some r => (true, r)
    | None => (false, s)
    end in
  match read_int s1 with
  | None => None
  | Some (i, s2) =>
      match read_frac i s2 with
      | None => None
      | Some (m, flen, s3) =>
          match read_exp s3 with
          | None => None
          | Some (e, s4) =>
              Some (mkNumber negative m (e - Z.of_nat flen), s4)
          end
      end
  end.

Definition strip_prefix (p s : jsstring) : option jsstring :=
  if eqb_str p (take (length p) s) then Some (drop (length p) s) else None.

(** The three mutually recursive readers, each with its recursive calls
    as arguments: a value at the head of [s] (after white space) and
    what follows it, *)
Definition value_step
  (elements : jsstring -> option (list value * jsstring))
  (members : jsstring -> list (jsstring * value)
             -> option (list (jsstring * value) * jsstring))
  (s : jsstring) : option (value * jsstring) :=
  match skip_ws s with
  | [] => None
  | c :: r =>
      if N.eqb c 123 then
        match after 125 (skip_ws r) with
        | Some r' => Some (VObject [], r')
        | None =>
            match members r [] with
            | Some (props, r') => Some (VObject props, r')
            | None => None
            end
        end
      else if N.eqb c 91 then
        match after 93 (skip_ws r) with
        | Some r' => Some (VArray [], r')
        | None =>
            match elements r with
            | Some (items, r') => Some (VArray items, r')
            | None => None
            end
        end
      else if N.eqb c 34 then
        match read_string r with
        | Some (body, r') => Some (VString body, r')
        | None => None
        end
      else if N.eqb c 116 then
        match strip_prefix (str "true") (c :: r) with
        | Some r' => Some (VBool true, r')
        | None => None
        end
      else if N.eqb c 102 then
        match strip_prefix (str "false") (c :: r) with
        | Some r' => Some (VBool false, r')
        | None => None
        end
      else if N.eqb c 110 then
        match strip_prefix (str "null") (c :: r) with
        | Some r' => Some (VNull, r')
        | None => None
        end
      else
        match read_number (c :: r) with
        | Some (n, r') => Some (VNumber n, r')
        | None => None
        end
  end.

(** the elements of a non-empty array after its bracket, up to and
    including the closing bracket, *)
Definition elements_step
  (value_ : jsstring -> option (value * jsstring))
  (elements : jsstring -> option (list value * jsstring))
  (s : jsstring) : option (list value * jsstring) :=
  match value_ s with
  | None => None
  | Some (v, r) =>
      match after 93 (skip_ws r), after 44 (skip_ws r) with
      | Some r', _ => Some ([v], r')
      | None, Some r' =>
          match elements r' with
          | Some (vs, r'') => Some (v :: vs, r'')
          | None => None
          end
      | None, None => None
      end
  end.

(** and the members of a non-empty object after its brace, up to and
    including the closing brace, added to [acc]. *)
Definition members_step
  (value_ : jsstring -> option (value * jsstring))
  (members : jsstring -> list (jsstring * value)
             -> option (list (jsstring * value) * jsstring))
  (s : jsstring) (acc : list (jsstring * value))
  : option (list (jsstring * value) * jsstring) :=
  match after 34 (skip_ws s) with
  | None => None
  | Some r =>
      match read_string r with
      | None => None
      | Some (k, r1) =>
          match after 58 (skip_ws r1) with
          | None => None
          | Some r2 =>
              match value_ r2 with
              | None => None
              | Some (v, r3) =>
                  match after 125 (skip_ws r3), after 44 (skip_ws r3) with
                  | Some r4, _ => Some (set acc k v, r4)
                  | None, Some r4 => members r4 (set acc k v)
                  | None, None => None
                  end
              end
          end
      end
  end.

(** Every call spends one unit of [fuel]. *)
Fixpoint read_value (fuel : nat) (s : jsstring) {struct fuel}
  : option (value * jsstring) :=
  match fuel with
  | 0 => None
  | S fuel => value_step (read_elements fuel) (read_members fuel) s
  end
with read_elements (fuel : nat) (s : jsstring) {struct fuel}
  : option (list value * jsstring) :=
  match fuel with
  | 0 => None
  | S fuel => elements_step (read_value fuel) (read_elements fuel) s
  end
with read_members (fuel : nat) (s : jsstring)
  (acc : list (jsstring * value)) {struct fuel}
  : option (list (jsstring * value) * jsstring) :=
  match fuel with
  | 0 => None
  | S fuel => members_step (read_value fuel) (read_members fuel) s acc
  end.

(** [JSON.parse(text)]: one value, white space around it, nothing else;
    a [SyntaxError] otherwise. A repeated key keeps its last value. Of
    two nested calls of the readers one consumes a character, so twice
    the length of the text, and two more, is fuel enough. *)
Definition parse (text : jsstring) : outcome SyntaxError value :=
  match read_value (2 * length text + 2) text with
  | Some (v, rest) =>
      match skip_ws rest with
      | [] => Ret v
      | _ => Throw mkSyntaxError
      end
  | None => Throw mkSyntaxError
  end.

End JSON.

(** ** The fragment of Zod the flow uses *)

Module Zod.

Inductive ZodError := mkZodError.

(** [z.string()], [z.boolean()], [z.enum([...])], [z.array(t)] and
    [z.object({...})] with its default policy on unknown keys (they are
    stripped). *)
Inductive schema :=
| ZString
| ZBoolean
| ZEnum (values : list jsstring)
| ZArray (element : schema)
| ZObject (shape : list (jsstring * schema)).

(** [schema.parse(data)]: the parsed value, or a thrown [ZodError]. No
    coercion takes place: each schema first checks the runtime type of
    its input. A key of the shape that the input lacks is read as
    [undefined]. *)
Fixpoint parse (sc : schema) (data : value) : outcome ZodError value :=
  match sc with
  | ZString =>
      match data with
      | VString _ => Ret data
      | _ => Throw mkZodError
      end
  | ZBoolean =>
      match data with
      | VBool _ => Ret data
      | _ => Throw mkZodError
      end
  | ZEnum values =>
      match data with
      | VString s =>
          if existsb (eqb_str s) values then Ret data else Throw mkZodError
      | _ => Throw mkZodError
      end
  | ZArray element =>
      match data with
      | VArray items =>
          let! parsed := mapM (parse element) items in
          Ret (VArray parsed)
      | _ => Throw mkZodError
      end
  | ZObject shape =>
      match data with
      | VObject props =>
          let! parsed :=
            mapM (fun '(key, field) =>
                    let! x := parse field (get props key) in
                    Ret (key, x)) shape in
          Ret (VObject parsed)
      | _ => Throw mkZodError
      end
  end.

End Zod.

(** ** The flow: [src/ai/flows/extract-and-validate-feedback.ts] *)

Definition dquote : jsstring := [34%N].
Definition quoted (s : jsstring) : jsstring := dquote ++ s ++ dquote.

(** The literal with its o-acute, U+00F3. *)
Definition Atencion : jsstring := str "Atenci" ++ [243%N] ++ str "n".

Definition entidad : jsstring := str "entidad".
Definition polaridad : jsstring := str "polaridad".
Definition categoria : jsstring := str "categoria".
Definition urgencia : jsstring := str "urgencia".

Definition FeedbackSchema : Zod.schema :=
  Zod.ZObject
    [ (entidad, Zod.ZString);
      (polaridad, Zod.ZEnum [str "Amor"; str "Odio"]);
      (categoria, Zod.ZArray (Zod.ZEnum [Atencion; str "App"; str "Cajeros"]));
      (urgencia, Zod.ZBoolean) ].

Record ExtractAndValidateFeedbackInput := mkInput {
  systemInstruction : jsstring;
  textContent : jsstring
}.

Inductive ValidationStatus := Success | Failure.

(** One element of [validatedResults]; [parsedResult] is [VNull] when
    there is no record. *)
Record LineResult := mkLineResult {
  originalText : jsstring;
  parsedResult : value;
  validationStatus : ValidationStatus
}.

Record ExtractAndValidateFeedbackOutput := mkOutput {
  rawResponse : jsstring;
  validatedResults : list LineResult
}.

(** What a failing model call throws: an [Error] and its message. *)
Record Error := mkError { message : jsstring }.

(** Lines joined by line feeds. *)
Fixpoint unlines (ls : list jsstring) : jsstring :=
  match ls with
  | [] => []
  | [l] => l
  | l :: rest => l ++ 10%N :: unlines rest
  end.

(** The prompt template, cut at its two triple-stash slots. *)
Definition template_before : jsstring :=
  unlines
    [ str "";
      str "    You are an expert data extraction assistant specialized in customer feedback analysis.";
      str "    ";
      str "    SYSTEM INSTRUCTION:";
      str "    " ].

Definition template_between : jsstring :=
  unlines
    [ str "";
      str "    ";
      str "    TASK:";
      str "    Analyze the text content provided below and extract structured information for EACH line of feedback.";
      str "    Return the result as a valid JSON array of objects.";
      str "    ";
      str "    JSON STRUCTURE FOR EACH ITEM:";
      str "    {";
      str "      " ++ quoted entidad ++ str ": string,";
      str "      " ++ quoted polaridad ++ str ": " ++ quoted (str "Amor")
        ++ str " | " ++ quoted (str "Odio") ++ str ",";
      str "      " ++ quoted categoria ++ str ": [" ++ quoted Atencion
        ++ str " | " ++ quoted (str "App") ++ str " | "
        ++ quoted (str "Cajeros") ++ str "],";
      str "      " ++ quoted urgencia ++ str ": boolean";
      str "    }";
      str "    ";
      str "    CONSTRAINTS:";
      str "    - Return ONLY the JSON array. Do not include markdown code blocks or explanations.";
      str "    - Match the number of items in the array to the number of non-empty lines in the input text.";
      str "    - Ensure enums like " ++ quoted (str "Amor") ++ str "/"
        ++ quoted (str "Odio")
        ++ str " and categories are matched exactly as specified.";
      str "    ";
      str "    TEXT CONTENT:";
      str "    " ].

Definition template_after : jsstring :=
  unlines [ str ""; str "  " ].

(** Rendering: each triple-stash slot receives its field unescaped. *)
Definition renderPrompt (input : ExtractAndValidateFeedbackInput) : jsstring :=
  template_before ++ systemInstruction input
  ++ template_between ++ textContent input ++ template_after.

(** [input.textContent.split('\n').filter(line => line.trim().length > 0)] *)
Definition textLinesOf (textContent : jsstring) : list jsstring :=
  List.filter (fun line => 0 <? length (trim line)) (split 10 textContent).

(** [a || b] on a string that may be [undefined]. *)
Definition or_else (a : option jsstring) (b : jsstring) : jsstring :=
  match a with
  | Some (c :: s) => c :: s
  | Some [] | None => b
  end.

(** [textLines.map((line, index) => ...)] with a callback that may
    throw. *)
Fixpoint map_index {E A B} (f : A -> nat -> outcome E B) (i : nat)
  (l : list A) : outcome E (list B) :=
  match l with
  | [] => Ret []
  | x :: rest =>
      let! y := f x i in
      let! ys := map_index f (S i) rest in
      Ret (y :: ys)
  end.

Section Flow.

(** The generative model behind the prompt: it receives the rendered
    prompt and returns its output, of any shape, or fails. *)
Variable model : jsstring -> outcome Error value.

(** The text [JSON.stringify(v, null, 2)] produces for a value other than
    [undefined]. *)
Variable serialize : value -> jsstring.

Definition JSON_stringify (v : value) : option jsstring :=
  match v with
  | VUndefined => None
  | _ => Some (serialize v)
  end.

Definition extractFeedbackPrompt (input : ExtractAndValidateFeedbackInput)
  : outcome Error value :=
  model (renderPrompt input).

(** The [try] block that fills [jsonResults]. *)
Definition jsonResultsOf (output : value) : outcome Error (list value) :=
  try_catch
    (let! parsed :=
       match output with
       | VString s => JSON.parse s
       | _ => Ret output
       end in
     Ret match parsed with
         | VArray items => items
         | _ =>
             if truthy parsed
                && match typeof parsed with TObject => true | _ => false end
             then [parsed]
             else []
         end)
    (fun _ => Ret []).

(** The callback of [textLines.map], over the validator it calls. *)
Definition validateLine (validate : value -> outcome Zod.ZodError value)
  (jsonResults : list value) (line : jsstring) (i : nat)
  : outcome Error LineResult :=
  let candidate := index jsonResults i in
  if truthy candidate then
    try_catch
      (let! parsed := validate candidate in
       Ret (mkLineResult line parsed Success))
      (fun _ => Ret (mkLineResult line VNull Failure))
  else Ret (mkLineResult line VNull Failure).

Definition alignLines (jsonResults : list value) (textLines : list jsstring)
  : outcome Error (list LineResult) :=
  map_index (validateLine (Zod.parse FeedbackSchema) jsonResults) 0 textLines.

Definition extractAndValidateFeedbackFlow
  (input : ExtractAndValidateFeedbackInput)
  : outcome Error ExtractAndValidateFeedbackOutput :=
  let! output := extractFeedbackPrompt input in
  let rawResponse :=
    match output with
    | VString s => s
    | _ => or_else (JSON_stringify output) (str "[]")
    end in
  let textLines := textLinesOf (textContent input) in
  let! jsonResults := jsonResultsOf output in
  let! validatedResults := alignLines jsonResults textLines in
  Ret (mkOutput rawResponse validatedResults).

Definition failureLine (line : jsstring) : LineResult :=
  mkLineResult line VNull Failure.

(** The exported entry point. *)
Definition extractAndValidateFeedback
  (input : ExtractAndValidateFeedbackInput)
  : outcome Error ExtractAndValidateFeedbackOutput :=
  try_catch (extractAndValidateFeedbackFlow input)
    (fun error =>
       let textLines := textLinesOf (textContent input) in
       Ret (mkOutput
              (str "Error en la evaluaci" ++ [243%N] ++ str "n: "
               ++ or_else (Some (message error))
                    (str "Error desconocido del motor de IA"))
              (map failureLine textLines))).

End Flow.

(** ** The dashboard's caller: [runEvaluation] *)

(** What one run leaves in the history (its random id and its time stamp
    are left out). *)
Record EvaluationRecord := mkRecord {
  record_systemInstruction : jsstring;
  score : nat;
  total : nat;
  results : ExtractAndValidateFeedbackOutput
}.

Definition isSuccess (r : LineResult) : bool :=
  match validationStatus r with Success => true | Failure => false end.

Section Dashboard.

Variable model : jsstring -> outcome Error value.
Variable serialize : value -> jsstring.

(** [fileContent] is [null] until a file has been read. Nothing happens,
    [None], when the guard returns early. *)
Definition runEvaluation (systemInstruction : jsstring)
  (fileContent : option jsstring) : option EvaluationRecord :=
  match fileContent with
  | None => None
  | Some content =>
      match trim systemInstruction, content with
      | [], _ | _, [] => None
      | _, _ =>
          match extractAndValidateFeedback model serialize
                  (mkInput (trim systemInstruction) content) with
          | Ret output =>
              Some (mkRecord (trim systemInstruction)
                      (length (List.filter isSuccess (validatedResults output)))
                      (length (validatedResults output))
                      output)
          | Throw _ => None
          end
      end
  end.

End Dashboard.

(** ** The variant of the flow that parses line by line

    A second version of the same file. It has no wrapper, keeps blank
    lines, declares a string output for its prompt and, when the response
    is not one JSON array, parses the lines of the input text instead.
    The [catch] around that second pass cannot be reached, its callback
    catching everything itself. *)

Module LineByLine.

(** What the outer [try] block can throw. *)
Inductive Caught := CaughtSyntaxError | CaughtTypeError.

Definition template_between : jsstring :=
  unlines
    [ str "";
      str "";
      str "Extract the following JSON structure from the text content:";
      str "";
      str "{ ";
      str "  " ++ quoted entidad ++ str ": "
        ++ quoted (str "Nombre del servicio/persona") ++ str ",";
      str "  " ++ quoted polaridad ++ str ": (Amor/Odio),";
      str "  " ++ quoted categoria ++ str ": [" ++ quoted Atencion ++ str ", "
        ++ quoted (str "App") ++ str ", " ++ quoted (str "Cajeros") ++ str "],";
      str "  " ++ quoted urgencia ++ str ": boolean";
      str "}";
      str "";
      str "Text Content: " ].

Definition renderPrompt (input : ExtractAndValidateFeedbackInput) : jsstring :=
  systemInstruction input ++ template_between ++ textContent input.

(** [FeedbackSchema.parse(item)] or [null]. *)
Definition parseOrNull (item : value) : value :=
  match Zod.parse FeedbackSchema item with
  | Ret record => record
  | Throw _ => VNull
  end.

(** [a || null] *)
Definition or_null (a : value) : value := if truthy a then a else VNull.

Section Flow.

Variable model : jsstring -> outcome Error jsstring.

Definition extractFeedbackPrompt (input : ExtractAndValidateFeedbackInput)
  : outcome Error jsstring :=
  model (renderPrompt input).

(** [JSON.parse(rawResponse).map(...)]: calling [map] on anything but an
    array is a [TypeError]. *)
Definition parseWhole (rawResponse : jsstring) : outcome Caught (list value) :=
  match JSON.parse rawResponse with
  | Ret (VArray items) => Ret (map parseOrNull items)
  | Ret _ => Throw CaughtTypeError
  | Throw _ => Throw CaughtSyntaxError
  end.

(** The fallback: each line of the input text, parsed and validated. *)
Definition parseLine (line : jsstring) : value :=
  match JSON.parse line with
  | Ret parsed => parseOrNull parsed
  | Throw _ => VNull
  end.

Definition jsonResultsOf (rawResponse : jsstring) (textLines : list jsstring)
  : list value :=
  match parseWhole rawResponse with
  | Ret results => results
  | Throw _ => map parseLine textLines
  end.

Definition alignLine (jsonResults : list value) (i : nat) (line : jsstring)
  : LineResult :=
  let parsedResult := or_null (index jsonResults i) in
  mkLineResult line parsedResult
    (if truthy parsedResult then Success else Failure).

Definition extractAndValidateFeedbackFlow
  (input : ExtractAndValidateFeedbackInput)
  : outcome Error ExtractAndValidateFeedbackOutput :=
  let! rawResponse := extractFeedbackPrompt input in
  let textLines := split 10 (textContent input) in
  let jsonResults := jsonResultsOf rawResponse textLines in
  Ret (mkOutput rawResponse (imap (alignLine jsonResults) textLines)).

Definition extractAndValidateFeedback := extractAndValidateFeedbackFlow.

End Flow.

End LineByLine.

(** ** Notions the statements are phrased with *)

(** The non-blank lines of a text: the lines that are not empty once
    trimmed, in order. *)
Definition nonBlankLines (text : jsstring) : list jsstring :=
  filter (λ line, trim line ≠ []) (split 10 text).

(** The four field constraints of a feedback record. *)
Definition entidad_ok (v : value) : Prop := ∃ s, v = VString s.

Definition polaridad_ok (v : value) : Prop :=
  v = VString (str "Amor") ∨ v = VString (str "Odio").

Definition category_ok (v : value) : Prop :=
  v = VString Atencion ∨ v = VString (str "App") ∨ v = VString (str "Cajeros").

Definition categoria_ok (v : value) : Prop :=
  ∃ items, v = VArray items ∧ Forall category_ok items.

Definition urgencia_ok (v : value) : Prop := ∃ b, v = VBool b.

Definition satisfies_schema (candidate : value) : Prop :=
  ∃ props, candidate = VObject props
    ∧ entidad_ok (get props entidad)
    ∧ polaridad_ok (get props polaridad)
    ∧ categoria_ok (get props categoria)
    ∧ urgencia_ok (get props urgencia).

Definition fieldNames : list jsstring :=
  [entidad; polaridad; categoria; urgencia].

(** The result of the per-line callback, as a function of the candidate
    found at the line's position. *)
Definition lineVerdict (validate : value -> outcome Zod.ZodError value)
  (jsonResults : list value) (i : nat) (line : jsstring) : LineResult :=
  let candidate := index jsonResults i in
  if truthy candidate then
    match validate candidate with
    | Ret parsed => mkLineResult line parsed Success
    | Throw _ => failureLine line
    end
  else failureLine line.

(** What [rawResponse] is for a given model output. *)
Definition rawResponseOf (serialize : value -> jsstring) (output : value)
  : jsstring :=
  match output with
  | VString s => s
  | _ => or_else (JSON_stringify serialize output) (str "[]")
  end.

(** Recovery line by line, the way the specification words it: every
    line of the raw text is parsed on its own and a line that does not
    parse leaves [undefined] at its position. *)
Definition perLineCandidates (raw : jsstring) : list value :=
  map (fun line =>
         match JSON.parse line with
         | Ret v => v
         | Throw _ => VUndefined
         end)
      (split 10 raw).

(** The invariant of a line result: [Success] goes with a record that
    is there and satisfies the schema, [Failure] with no record. *)
Definition line_invariant (r : LineResult) : Prop :=
  (validationStatus r = Success
   ↔ parsedResult r ≠ VNull ∧ satisfies_schema (parsedResult r))
  ∧ (validationStatus r = Failure → parsedResult r = VNull).

(** An output that some path of the pipeline returned: the entry point
    (through the flow or through its fault handler) or the line-by-line
    variant of the flow. *)
Definition produced (out : ExtractAndValidateFeedbackOutput) : Prop :=
  (∃ model serialize input,
     extractAndValidateFeedback model serialize input = Ret out)
  ∨ (∃ model input, LineByLine.extractAndValidateFeedback model input = Ret out).

(** The text of the fault handler's [rawResponse]. *)
Definition diagnostic (error : Error) : jsstring :=
  str "Error en la evaluaci" ++ [243%N] ++ str "n: "
  ++ match message error with
     | [] => str "Error desconocido del motor de IA"
     | c :: m => c :: m
     end.

(** ** Sample data *)

Module Sample.

Definition record (e p : jsstring) (cs : list jsstring) (u : bool) : value :=
  VObject [ (entidad, VString e); (polaridad, VString p);
            (categoria, VArray (map VString cs)); (urgencia, VBool u) ].

Fixpoint commas (items : list jsstring) : jsstring :=
  match items with
  | [] => []
  | [x] => x
  | x :: rest => x ++ str "," ++ commas rest
  end.

(** The JSON text of a record (no character of ours needs escaping). *)
Definition recordText (e p : jsstring) (cs : list jsstring) (u : bool)
  : jsstring :=
  str "{" ++ quoted entidad ++ str ":" ++ quoted e ++ str ","
  ++ quoted polaridad ++ str ":" ++ quoted p ++ str ","
  ++ quoted categoria ++ str ":[" ++ commas (map quoted cs) ++ str "],"
  ++ quoted urgencia ++ str ":" ++ (if u then str "true" else str "false")
  ++ str "}".

Definition arrayText (items : list jsstring) : jsstring :=
  str "[" ++ commas items ++ str "]".

(** A model that answers every prompt with the same output. *)
Definition replies (output : value) : jsstring -> outcome Error value :=
  fun _ => Ret output.

(** A model whose call fails. *)
Definition fails (msg : jsstring) : jsstring -> outcome Error value :=
  fun _ => Throw (mkError msg).

(** A model that answers with the prompt it was given. *)
Definition echoes : jsstring -> outcome Error value :=
  fun prompt => Ret (VString prompt).

(** A serializer for runs in which the serialization is not looked at. *)
Definition anySerializer : value -> jsstring := fun _ => str "null".

Definition twoLines : jsstring := str "Great app" ++ [10%N] ++ str "Rude teller".

Definition withBlankLine : jsstring :=
  str "Great app" ++ [10%N; 10%N] ++ str "Rude teller".

Definition appRecord : jsstring := recordText (str "App") (str "Amor") [str "App"] false.
Definition tellerRecord : jsstring := recordText (str "Cajero") (str "Odio") [Atencion] true.

End Sample.

(** ** The variant of the file with the simulator prompt

    A third version of the same file: the flow and the wrapper are the
    ones above but for the prompt template and for the text of the
    diagnostic. *)

Module Simulator.

Definition template_before : jsstring :=
  unlines
    [ str "";
      str "    You are a simulator that evaluates a Student's Prompt Engineering skills.";
      str "    ";
      str "    CRITICAL: You must follow the logic and rules provided in the "
        ++ quoted (str "STUDENT INSTRUCTION") ++ str " section below.";
      str "    If the Student Instruction is missing rules, logic, or is incorrect, you must NOT "
        ++ quoted (str "fix")
        ++ str " it or use your own knowledge to fill the gaps. Your output must reflect EXACTLY what the student instructed.";
      str "    ";
      str "    STUDENT INSTRUCTION (The source of all logic):";
      str "    " ++ dquote ++ dquote ++ dquote;
      str "    " ].

Definition template_between : jsstring :=
  unlines
    [ str "";
      str "    " ++ dquote ++ dquote ++ dquote;
      str "    ";
      str "    DATA TO PROCESS (One example per line):";
      str "    " ].

Definition template_after : jsstring :=
  unlines
    [ str "";
      str "    ";
      str "    OUTPUT FORMAT REQUIREMENTS:";
      str "    - You must ALWAYS return a JSON array of objects.";
      str "    - Each object in the array must match this schema:";
      str "      {";
      str "        " ++ quoted entidad ++ str ": string,";
      str "        " ++ quoted polaridad ++ str ": " ++ quoted (str "Amor")
        ++ str " | " ++ quoted (str "Odio") ++ str ",";
      str "        " ++ quoted categoria ++ str ": [" ++ quoted Atencion
        ++ str " | " ++ quoted (str "App") ++ str " | "
        ++ quoted (str "Cajeros") ++ str "],";
      str "        " ++ quoted urgencia ++ str ": boolean";
      str "      }";
      str "    - If the student's instruction did not provide enough info to fill a field, leave it null or as an empty string according to your best literal interpretation of their bad prompt.";
      str "    - Do NOT include markdown blocks or any text other than the JSON array.";
      str "  " ].

Definition renderPrompt (input : ExtractAndValidateFeedbackInput) : jsstring :=
  template_before ++ systemInstruction input
  ++ template_between ++ textContent input ++ template_after.

Section Flow.

Variable model : jsstring -> outcome Error value.
Variable serialize : value -> jsstring.

Definition extractFeedbackPrompt (input : ExtractAndValidateFeedbackInput)
  : outcome Error value :=
  model (renderPrompt input).

Definition extractAndValidateFeedbackFlow
  (input : ExtractAndValidateFeedbackInput)
  : outcome Error ExtractAndValidateFeedbackOutput :=
  let! output := extractFeedbackPrompt input in
  let rawResponse :=
    match output with
    | VString s => s
    | _ => or_else (JSON_stringify serialize output) (str "[]")
    end in
  let textLines := textLinesOf (textContent input) in
  let! jsonResults := jsonResultsOf output in
  let! validatedResults := alignLines jsonResults textLines in
  Ret (mkOutput rawResponse validatedResults).

Definition extractAndValidateFeedback
  (input : ExtractAndValidateFeedbackInput)
  : outcome Error ExtractAndValidateFeedbackOutput :=
  try_catch (extractAndValidateFeedbackFlow input)
    (fun error =>
       let textLines := textLinesOf (textContent input) in
       Ret (mkOutput
              (str "Error cr" ++ [237%N] ++ str "tico en el modelo: "
               ++ or_else (Some (message error))
                    (str "Sin respuesta del agente"))
              (map failureLine textLines))).

End Flow.

End Simulator.

(** ** The dashboard component and its handlers *)

(** [localStorage]: string keys, string values. *)
Abbreviation Storage := (gmap jsstring jsstring).

(** A file picked in the file input: its name and the text the reader
    loads from it. *)
Record File := mkFile {
  file_name : jsstring;
  file_text : jsstring
}.

Module Dashboard.

(** The state hooks of the component; [instruction] is the
    [systemInstruction] hook. *)
Record State := mkState {
  instruction : jsstring;
  fileContent : option jsstring;
  fileName : option jsstring;
  isProcessing : bool;
  currentResult : option ExtractAndValidateFeedbackOutput;
  history : list EvaluationRecord
}.

Definition initial : State := mkState [] None None false None [].

(** What the summary card shows. *)
Definition shownScore (st : State) : nat :=
  match currentResult st with
  | Some result => length (List.filter isSuccess (validatedResults result))
  | None => 0
  end.

Definition totalItems (st : State) : nat :=
  match currentResult st with
  | Some result => length (validatedResults result)
  | None => 0
  end.

(** The text area's [onChange]; the eraser button is the same with the
    empty text. *)
Definition setSystemInstruction (text : jsstring) (st : State) : State :=
  mkState text (fileContent st) (fileName st) (isProcessing st)
    (currentResult st) (history st).

(** [handleFileUpload], once the reader it starts has loaded the file.
    Nothing happens when no file was picked. *)
Definition handleFileUpload (file : option File) (st : State) : State :=
  match file with
  | Some f =>
      mkState (instruction st) (Some (file_text f)) (Some (file_name f))
        (isProcessing st) (currentResult st) (history st)
  | None => st
  end.

Definition startNewAttempt (st : State) : State :=
  mkState [] None None (isProcessing st) None (history st).

(** The click on a row of the history list: the row's results go on
    display and its instruction goes back into the text area. A row is
    there for each record of the history. *)
Definition reopen (row : nat) (st : State) : State :=
  match history st !! row with
  | Some record =>
      mkState (record_systemInstruction record) (fileContent st)
        (fileName st) (isProcessing st) (Some (results record)) (history st)
  | None => st
  end.

(** What [localStorage.setItem] throws when the storage is full. *)
Inductive StorageError := QuotaExceededError.

Section Handlers.

Variable model : jsstring -> outcome Error value.
Variable serialize : value -> jsstring.

(** The text [JSON.stringify] gives for a history. *)
Variable stringifyHistory : list EvaluationRecord -> jsstring.

(** Whether the storage, as it is, takes the value under the key. *)
Variable takes : Storage -> jsstring -> jsstring -> bool.

Variable studentName : jsstring.

Definition historyKey : jsstring := str "uees_history_" ++ studentName.

(** [localStorage.setItem(k, v)] *)
Definition setItem (storage : Storage) (k v : jsstring)
  : outcome StorageError Storage :=
  if takes storage k v then Ret (<[k := v]> storage)
  else Throw QuotaExceededError.

(** [runEvaluation], from the click to the moment its promise settles,
    on the component's state and on [localStorage]. The history is set
    before the write to the storage; a write that throws is caught with
    the rest and leaves the storage as it was. *)
Definition runEvaluation (st : State) (storage : Storage) : State * Storage :=
  match fileContent st with
  | None => (st, storage)
  | Some content =>
      match trim (instruction st), content with
      | [], _ | _, [] => (st, storage)
      | _, _ =>
          match extractAndValidateFeedback model serialize
                  (mkInput (trim (instruction st)) content) with
          | Ret output =>
              let record :=
                mkRecord (trim (instruction st))
                  (length (List.filter isSuccess (validatedResults output)))
                  (length (validatedResults output))
                  output in
              let newHistory := record :: history st in
              (mkState (instruction st) (fileContent st) (fileName st) false
                 (Some output) newHistory,
               match setItem storage historyKey
                       (stringifyHistory newHistory) with
               | Ret written => written
               | Throw _ => storage
               end)
          | Throw _ =>
              (mkState (instruction st) (fileContent st) (fileName st) false
                 None (history st),
               storage)
          end
      end
  end.

(** What the user can do with the component. *)
Inductive Event :=
| Typed (text : jsstring)
| Picked (file : option File)
| Clicked
| Restarted
| Reopened (row : nat).

Definition handle (ev : Event) (world : State * Storage) : State * Storage :=
  match ev with
  | Typed text => (setSystemInstruction text (fst world), snd world)
  | Picked file => (handleFileUpload file (fst world), snd world)
  | Clicked => runEvaluation (fst world) (snd world)
  | Restarted => (startNewAttempt (fst world), snd world)
  | Reopened row => (reopen row (fst world), snd world)
  end.

Definition handleAll (events : list Event) (world : State * Storage)
  : State * Storage :=
  foldl (fun w ev => handle ev w) world events.

End Handlers.

End Dashboard.

(** [runEvaluation] of the other version of the dashboard: the guard and
    the call take the instruction as it was typed. *)
Section EarlierDashboard.

Variable model : jsstring -> outcome Error value.
Variable serialize : value -> jsstring.

Definition runEvaluation_untrimmed (systemInstruction : jsstring)
  (fileContent : option jsstring) : option EvaluationRecord :=
  match fileContent with
  | None => None
  | Some content =>
      match systemInstruction, content with
      | [], _ | _, [] => None
      | _, _ =>
          match extractAndValidateFeedback model serialize
                  (mkInput systemInstruction content) with
          | Ret output =>
              Some (mkRecord systemInstruction
                      (length (List.filter isSuccess (validatedResults output)))
                      (length (validatedResults output))
                      output)
          | Throw _ => None
          end
      end
  end.

End EarlierDashboard.

(** ** The login form and the page *)

(** [StudentLogin]'s [handleSubmit]: the name [onLogin] is called with,
    if it is called. *)
Definition handleSubmit (name : jsstring) : option jsstring :=
  if 3 <=? length (trim name) then Some (trim name) else None.

Module Home.

Record State := mkState {
  studentName : option jsstring;
  mounted : bool
}.

Definition initial : State := mkState None false.

Definition nameKey : jsstring := str "uees_student_name".

(** The effect that runs once the page is mounted. *)
Definition mount (st : State) (storage : Storage) : State :=
  match storage !! nameKey with
  | Some (c :: storedName) => mkState (Some (c :: storedName)) true
  | Some [] | None => mkState (studentName st) true
  end.

(** [handleLogin], for a name the storage takes. *)
Definition handleLogin (name : jsstring) (st : State) (storage : Storage)
  : State * Storage :=
  (mkState (Some name) (mounted st), <[nameKey := name]> storage).

Definition handleLogout (st : State) (storage : Storage) : State * Storage :=
  (mkState None (mounted st), delete nameKey storage).

(** What the page renders. *)
Inductive Screen :=
| Nothing
| LoginForm
| DashboardOf (name : jsstring).

Definition render (st : State) : Screen :=
  if mounted st then
    match studentName st with
    | Some (c :: name) => DashboardOf (c :: name)
    | Some [] | None => LoginForm
    end
  else Nothing.

End Home.

(** ** More notions the statements are phrased with *)

(** The schema accepts the candidate. *)
Definition accepts (candidate : value) : bool :=
  match Zod.parse FeedbackSchema candidate with
  | Ret _ => true
  | Throw _ => false
  end.

(** A character a JSON text can start with, white space apart. *)
Definition startsJson (c : N) : bool :=
  existsb (N.eqb c) [123; 91; 34; 116; 102; 110; 45]%N
  || ((48 <=? c) && (c <=? 57))%N.

(** A value that is neither an array nor an object. *)
Definition scalar (v : value) : bool :=
  match v with
  | VArray _ | VObject _ => false
  | _ => true
  end.

(** Kinds of events. *)
Definition isClick (ev : Dashboard.Event) : bool :=
  match ev with Dashboard.Clicked => true | _ => false end.

Definition picksFile (ev : Dashboard.Event) : bool :=
  match ev with Dashboard.Picked (Some _) => true | _ => false end.

(** Typing, or reopening a past attempt: the two ways an instruction
    gets into the text area. *)
Definition bringsInstruction (ev : Dashboard.Event) : bool :=
  match ev with
  | Dashboard.Typed _ | Dashboard.Reopened _ => true
  | _ => false
  end.

(** A storage that takes every write, and one that takes none. *)
Definition roomy : Storage -> jsstring -> jsstring -> bool :=
  fun _ _ _ => true.

Definition full : Storage -> jsstring -> jsstring -> bool :=
  fun _ _ _ => false.

(** A stand-in for the text of a history where that text is not looked
    at: one mark for each entry. *)
Definition tally (h : list EvaluationRecord) : jsstring :=
  repeat 35%N (length h).

(** * Properties *)

(** ** Strings and lines *)

Lemma eqb_str_eq (a b : jsstring) : eqb_str a b = true ↔ a = b.
Proof.
  revert b; induction a as [|x a IH]; intros [|y b]; simpl; try done.
  rewrite andb_true_iff, N.eqb_eq, IH. split.
  - intros [-> ->]; done.
  - intros H; injection H as -> ->; done.
Qed.

Lemma eqb_str_refl (a : jsstring) : eqb_str a a = true.
Proof. by apply eqb_str_eq. Qed.

Lemma textLinesOf_nonBlank (text : jsstring) :
  textLinesOf text = nonBlankLines text.
Proof.
  unfold textLinesOf, nonBlankLines.
  induction (split 10 text) as [|line ls IH]; [done|].
  simpl. rewrite filter_cons, IH.
  destruct (trim line) eqn:Ht; simpl; done.
Qed.

(** ** The outcome of a mapped callback *)

Lemma map_index_pure {E A B} (f : A -> nat -> outcome E B) (g : nat -> A -> B) :
  (∀ x i, f x i = Ret (g i x)) →
  ∀ l i, map_index f i l = Ret (imap (λ j, g (i + j)) l).
Proof.
  intros Hf l. induction l as [|x l IH]; intros i; simpl; [done|].
  rewrite Hf, IH. simpl. rewrite Nat.add_0_r. do 2 f_equal.
  apply imap_ext. intros j y _. simpl. f_equal. lia.
Qed.

Lemma validateLine_verdict validate jsonResults line i :
  validateLine validate jsonResults line i
  = Ret (lineVerdict validate jsonResults i line).
Proof.
  unfold validateLine, lineVerdict.
  destruct (truthy (index jsonResults i)); [|done].
  destruct (validate (index jsonResults i)); done.
Qed.

Lemma alignLines_verdicts jsonResults textLines :
  alignLines jsonResults textLines
  = Ret (imap (lineVerdict (Zod.parse FeedbackSchema) jsonResults) textLines).
Proof.
  unfold alignLines.
  rewrite (map_index_pure _ (lineVerdict (Zod.parse FeedbackSchema) jsonResults)).
  - done.
  - intros; apply validateLine_verdict.
Qed.

Lemma lineVerdict_originalText validate jsonResults i line :
  originalText (lineVerdict validate jsonResults i line) = line.
Proof.
  unfold lineVerdict. destruct (truthy _); [|done].
  destruct (validate _); done.
Qed.

Lemma verdicts_originalText validate jsonResults textLines :
  map originalText (imap (lineVerdict validate jsonResults) textLines)
  = textLines.
Proof.
  apply list_eq. intros j.
  rewrite list_lookup_fmap, list_lookup_imap.
  destruct (textLines !! j); simpl; [|done].
  by rewrite lineVerdict_originalText.
Qed.

(** ** The schema *)

Lemma bind_Ret_inv {E A B} (m : outcome E A) (k : A -> outcome E B) (b : B) :
  bind m k = Ret b ↔ ∃ a, m = Ret a ∧ k a = Ret b.
Proof.
  destruct m as [a|e]; simpl; split.
  - intros H; exists a; done.
  - intros (a' & [= ->] & H); done.
  - discriminate.
  - intros (a' & [=] & _).
Qed.

Lemma parse_string_Ret (v r : value) :
  Zod.parse Zod.ZString v = Ret r ↔ r = v ∧ entidad_ok v.
Proof.
  unfold entidad_ok. destruct v; simpl; split;
    try discriminate; try (by intros [_ [? [=]]]).
  - intros [= <-]; eauto.
  - intros [-> _]; done.
Qed.

Lemma parse_boolean_Ret (v r : value) :
  Zod.parse Zod.ZBoolean v = Ret r ↔ r = v ∧ urgencia_ok v.
Proof.
  unfold urgencia_ok. destruct v; simpl; split;
    try discriminate; try (by intros [_ [? [=]]]).
  - intros [= <-]; eauto.
  - intros [-> _]; done.
Qed.

Lemma existsb_eqb_str (s : jsstring) (values : list jsstring) :
  existsb (eqb_str s) values = true ↔ In s values.
Proof.
  rewrite existsb_exists. split.
  - intros (x & Hx & Heq). apply eqb_str_eq in Heq. by subst.
  - intros Hs. exists s. split; [done | apply eqb_str_refl].
Qed.

Lemma parse_enum_Ret (values : list jsstring) (v r : value) :
  Zod.parse (Zod.ZEnum values) v = Ret r
  ↔ r = v ∧ ∃ s, v = VString s ∧ In s values.
Proof.
  destruct v; simpl; split; try discriminate; try (by intros [_ (? & [=] & _)]).
  - destruct (existsb _ _) eqn:Hin; [|discriminate].
    intros [= <-]. apply existsb_eqb_str in Hin. eauto.
  - intros [-> (s' & [= <-] & Hin)].
    apply existsb_eqb_str in Hin. by rewrite Hin.
Qed.

Lemma mapM_enum_Ret (values : list jsstring) (items r : list value) :
  mapM (Zod.parse (Zod.ZEnum values)) items = Ret r
  ↔ r = items ∧ Forall (λ v, ∃ s, v = VString s ∧ In s values) items.
Proof.
  revert r. induction items as [|x items IH]; intros r.
  - simpl. split; [intros [= <-] | intros [-> _]]; done.
  - change (mapM (Zod.parse (Zod.ZEnum values)) (x :: items))
      with (let! y := Zod.parse (Zod.ZEnum values) x in
            let! ys := mapM (Zod.parse (Zod.ZEnum values)) items in
            Ret (y :: ys)).
    rewrite bind_Ret_inv. split.
    + intros (y & Hy & H). apply bind_Ret_inv in H as (ys & Hys & [= <-]).
      apply parse_enum_Ret in Hy as [-> Hx]. apply IH in Hys as [-> Hitems].
      split; [done | by constructor].
    + intros [-> H]. inversion H as [|? ? Hx Hitems]; subst.
      exists x. split; [by apply parse_enum_Ret|].
      apply bind_Ret_inv. exists items. split; [by apply IH | done].
Qed.

Lemma polaridad_ok_enum (v : value) :
  polaridad_ok v ↔ ∃ s, v = VString s ∧ In s [str "Amor"; str "Odio"].
Proof.
  unfold polaridad_ok. simpl. split.
  - intros [-> | ->]; eauto.
  - intros (s & -> & [<- | [<- | []]]); eauto.
Qed.

Lemma category_ok_enum (v : value) :
  category_ok v ↔ ∃ s, v = VString s ∧ In s [Atencion; str "App"; str "Cajeros"].
Proof.
  unfold category_ok. simpl. split.
  - intros [-> | [-> | ->]]; eauto 6.
  - intros (s & -> & [<- | [<- | [<- | []]]]); eauto.
Qed.

Lemma parse_array_unfold (element : Zod.schema) (items : list value) :
  Zod.parse (Zod.ZArray element) (VArray items)
  = let! parsed := mapM (Zod.parse element) items in Ret (VArray parsed).
Proof. reflexivity. Qed.

Lemma parse_object_unfold (shape : list (jsstring * Zod.schema))
  (props : list (jsstring * value)) :
  Zod.parse (Zod.ZObject shape) (VObject props)
  = let! parsed :=
      mapM (fun '(key, field) =>
              let! x := Zod.parse field (get props key) in
              Ret (key, x)) shape in
    Ret (VObject parsed).
Proof. reflexivity. Qed.

Lemma parse_categoria_Ret (v r : value) :
  Zod.parse (Zod.ZArray (Zod.ZEnum [Atencion; str "App"; str "Cajeros"])) v
  = Ret r ↔ r = v ∧ categoria_ok v.
Proof.
  unfold categoria_ok.
  destruct v;
    try (split; [discriminate | by intros [_ (? & [=] & _)]]).
  rewrite parse_array_unfold. split.
  - intros H. apply bind_Ret_inv in H as (parsed & Hp & [= <-]).
    apply mapM_enum_Ret in Hp as [-> Hall].
    split; [done|]. exists items. split; [done|].
    eapply Forall_impl; [exact Hall|]. intros x Hx. by apply category_ok_enum.
  - intros [-> (items' & [= <-] & Hall)].
    apply bind_Ret_inv. exists items. split; [|done].
    apply mapM_enum_Ret. split; [done|].
    eapply Forall_impl; [exact Hall|]. intros x Hx. by apply category_ok_enum.
Qed.

(** The object schema runs its four field schemas on the four properties
    and keeps nothing else. *)
Lemma FeedbackSchema_parse_object (props : list (jsstring * value)) :
  Zod.parse FeedbackSchema (VObject props)
  = let! e := Zod.parse Zod.ZString (get props entidad) in
    let! p := Zod.parse (Zod.ZEnum [str "Amor"; str "Odio"])
                (get props polaridad) in
    let! c := Zod.parse
                (Zod.ZArray (Zod.ZEnum [Atencion; str "App"; str "Cajeros"]))
                (get props categoria) in
    let! u := Zod.parse Zod.ZBoolean (get props urgencia) in
    Ret (VObject [(entidad, e); (polaridad, p); (categoria, c); (urgencia, u)]).
Proof.
  unfold FeedbackSchema. rewrite parse_object_unfold. cbn [mapM].
  destruct (Zod.parse Zod.ZString (get props entidad)); [|done].
  destruct (Zod.parse (Zod.ZEnum _) (get props polaridad)); [|done].
  destruct (Zod.parse (Zod.ZArray _) (get props categoria)); [|done].
  destruct (Zod.parse Zod.ZBoolean (get props urgencia)); done.
Qed.

Lemma FeedbackSchema_parse_Ret (candidate r : value) :
  Zod.parse FeedbackSchema candidate = Ret r
  ↔ ∃ props, candidate = VObject props
      ∧ entidad_ok (get props entidad)
      ∧ polaridad_ok (get props polaridad)
      ∧ categoria_ok (get props categoria)
      ∧ urgencia_ok (get props urgencia)
      ∧ r = VObject [ (entidad, get props entidad);
                      (polaridad, get props polaridad);
                      (categoria, get props categoria);
                      (urgencia, get props urgencia) ].
Proof.
  destruct candidate;
    try (split; [discriminate | by intros (? & [=] & _)]).
  rewrite FeedbackSchema_parse_object. split.
  - intros H.
    apply bind_Ret_inv in H as (e & He & H).
    apply bind_Ret_inv in H as (p & Hp & H).
    apply bind_Ret_inv in H as (c & Hc & H).
    apply bind_Ret_inv in H as (u & Hu & [= <-]).
    apply parse_string_Ret in He as [-> He].
    apply parse_enum_Ret in Hp as [-> Hp].
    apply parse_categoria_Ret in Hc as [-> Hc].
    apply parse_boolean_Ret in Hu as [-> Hu].
    exists props. repeat split; try done. by apply polaridad_ok_enum.
  - intros (props' & [= <-] & He & Hp & Hc & Hu & ->).
    apply bind_Ret_inv. eexists. split; [by apply parse_string_Ret|].
    apply bind_Ret_inv. eexists. split.
    { apply parse_enum_Ret. split; [done|]. by apply polaridad_ok_enum. }
    apply bind_Ret_inv. eexists. split; [by apply parse_categoria_Ret|].
    apply bind_Ret_inv. eexists. split; [by apply parse_boolean_Ret|done].
Qed.

(** A parsed record is an object, satisfies the schema and parses to
    itself. *)
Lemma FeedbackSchema_parse_result (candidate r : value) :
  Zod.parse FeedbackSchema candidate = Ret r →
  satisfies_schema r ∧ truthy r = true ∧ r ≠ VNull
  ∧ Zod.parse FeedbackSchema r = Ret r.
Proof.
  intros H. apply FeedbackSchema_parse_Ret in H
    as (props & -> & He & Hp & Hc & Hu & ->).
  assert (Hs : satisfies_schema
                 (VObject [ (entidad, get props entidad);
                            (polaridad, get props polaridad);
                            (categoria, get props categoria);
                            (urgencia, get props urgencia) ])).
  { eexists. split; [done|]. by vm_compute get. }
  repeat split; try done.
  apply FeedbackSchema_parse_Ret.
  eexists. split; [done|]. repeat split; try done.
Qed.

Lemma FeedbackSchema_parse_truthy (candidate r : value) :
  Zod.parse FeedbackSchema candidate = Ret r → truthy candidate = true.
Proof. by intros (props & -> & _)%FeedbackSchema_parse_Ret. Qed.

Lemma satisfies_schema_truthy (candidate : value) :
  satisfies_schema candidate → truthy candidate = true.
Proof. by intros (props & -> & _). Qed.

(** C5. The schema accepts a candidate exactly when the candidate is an
    object whose four fields meet their constraints: [polaridad] is one of
    the two literals, [categoria] is an array of category literals
    (possibly empty), [urgencia] is a boolean and [entidad] is a string
    (possibly empty). *)
Theorem schema_accepts_iff_four_constraints (candidate : value) :
  (∃ r, Zod.parse FeedbackSchema candidate = Ret r)
  ↔ satisfies_schema candidate.
Proof.
  split.
  - intros [r H]. apply FeedbackSchema_parse_Ret in H
      as (props & -> & He & Hp & Hc & Hu & _).
    by exists props.
  - intros (props & -> & He & Hp & Hc & Hu).
    eexists. apply FeedbackSchema_parse_Ret. by exists props.
Qed.

(** The edge cases the constraints are worded with. *)
Example empty_entidad_and_categoria_accepted :
  Zod.parse FeedbackSchema (Sample.record [] (str "Odio") [] true)
  = Ret (Sample.record [] (str "Odio") [] true).
Proof. reflexivity. Qed.

Example lowercase_polaridad_rejected :
  Zod.parse FeedbackSchema
    (Sample.record (str "App") (str "amor") [str "App"] false)
  = Throw Zod.mkZodError.
Proof. reflexivity. Qed.

Example unknown_category_rejected :
  Zod.parse FeedbackSchema
    (Sample.record (str "App") (str "Amor") [str "App"; str "Web"] false)
  = Throw Zod.mkZodError.
Proof. reflexivity. Qed.

Example coerced_urgencia_rejected :
  Zod.parse FeedbackSchema
    (VObject [ (entidad, VString (str "App")); (polaridad, VString (str "Amor"));
               (categoria, VArray []);
               (urgencia, VNumber (mkNumber false 1 0)) ])
  = Throw Zod.mkZodError
  ∧ Zod.parse FeedbackSchema
      (VObject [ (entidad, VString (str "App"));
                 (polaridad, VString (str "Amor"));
                 (categoria, VArray []);
                 (urgencia, VString (str "true")) ])
    = Throw Zod.mkZodError.
Proof. split; reflexivity. Qed.

Example missing_field_rejected :
  Zod.parse FeedbackSchema
    (VObject [ (entidad, VString (str "App")); (polaridad, VString (str "Amor"));
               (categoria, VArray []) ])
  = Throw Zod.mkZodError.
Proof. reflexivity. Qed.

(** ** The per-line step *)

(** C6. The per-line step returns for every candidate, and returns one of
    two things: the parsed record with [Success] when the schema accepts
    the candidate, and otherwise the same null [Failure] result whichever
    constraint the candidate breaks. *)
Theorem validation_is_total (jsonResults : list value) (line : jsstring)
  (i : nat) :
  match Zod.parse FeedbackSchema (index jsonResults i) with
  | Ret record =>
      satisfies_schema record
      ∧ validateLine (Zod.parse FeedbackSchema) jsonResults line i
        = Ret (mkLineResult line record Success)
  | Throw _ =>
      validateLine (Zod.parse FeedbackSchema) jsonResults line i
      = Ret (mkLineResult line VNull Failure)
  end.
Proof.
  rewrite validateLine_verdict. unfold lineVerdict.
  destruct (Zod.parse FeedbackSchema (index jsonResults i)) as [r|e] eqn:Hp.
  - pose proof (FeedbackSchema_parse_result _ _ Hp) as (Hs & _).
    split; [done|].
    by rewrite (FeedbackSchema_parse_truthy _ _ Hp).
  - by destruct (truthy _).
Qed.

(** A record wrong in [urgencia] only and one wrong in [polaridad] only
    get the same result. *)
Example one_bad_field_is_enough :
  validateLine (Zod.parse FeedbackSchema)
    [ VObject [ (entidad, VString (str "App"));
                (polaridad, VString (str "Amor"));
                (categoria, VArray []); (urgencia, VNull) ] ]
    (str "Great app") 0
  = Ret (failureLine (str "Great app"))
  ∧ validateLine (Zod.parse FeedbackSchema)
      [ VObject [ (entidad, VString (str "App"));
                  (polaridad, VString (str "Indiferente"));
                  (categoria, VArray []); (urgencia, VBool true) ] ]
      (str "Great app") 0
    = Ret (failureLine (str "Great app")).
Proof. split; reflexivity. Qed.

(** C9. An object that agrees with an accepted one on the four fields,
    whatever else it carries, is accepted too; the line gets [Success] and
    the record attached has the four fields and no other. *)
Theorem extra_fields_are_stripped (props props' : list (jsstring * value))
  (record : value) (jsonResults : list value) (line : jsstring) (i : nat) :
  Zod.parse FeedbackSchema (VObject props) = Ret record →
  (∀ k, In k fieldNames → get props' k = get props k) →
  index jsonResults i = VObject props' →
  validateLine (Zod.parse FeedbackSchema) jsonResults line i
  = Ret (mkLineResult line record Success)
  ∧ ∃ e p c u,
      record = VObject [ (entidad, e); (polaridad, p);
                         (categoria, c); (urgencia, u) ].
Proof.
  intros Hp Hsame Hi.
  assert (Hp' : Zod.parse FeedbackSchema (VObject props') = Ret record).
  { rewrite FeedbackSchema_parse_object in *.
    rewrite !Hsame; [done | | | |]; unfold fieldNames; simpl; auto. }
  split.
  - rewrite validateLine_verdict. unfold lineVerdict. by rewrite Hi, Hp'.
  - apply FeedbackSchema_parse_Ret in Hp as (? & _ & _ & _ & _ & _ & ->).
    eauto.
Qed.

Lemma extra_fields_are_stripped_witness :
  validateLine (Zod.parse FeedbackSchema)
    [ VObject (set (set [ (entidad, VString (str "App"));
                          (polaridad, VString (str "Amor"));
                          (categoria, VArray [VString (str "App")]);
                          (urgencia, VBool false) ]
                      (str "comentario") (VString (str "n/a")))
                 (str "score") (VNumber (mkNumber false 9 0))) ]
    (str "Great app") 0
  = Ret (mkLineResult (str "Great app")
           (Sample.record (str "App") (str "Amor") [str "App"] false) Success)
  ∧ ∃ e p c u,
      Sample.record (str "App") (str "Amor") [str "App"] false
      = VObject [ (entidad, e); (polaridad, p);
                  (categoria, c); (urgencia, u) ].
Proof.
  apply (extra_fields_are_stripped
           [ (entidad, VString (str "App"));
             (polaridad, VString (str "Amor"));
             (categoria, VArray [VString (str "App")]);
             (urgencia, VBool false) ]
           (set (set [ (entidad, VString (str "App"));
                       (polaridad, VString (str "Amor"));
                       (categoria, VArray [VString (str "App")]);
                       (urgencia, VBool false) ]
                   (str "comentario") (VString (str "n/a")))
              (str "score") (VNumber (mkNumber false 9 0)))).
  - reflexivity.
  - intros k [<- | [<- | [<- | [<- | []]]]]; reflexivity.
  - reflexivity.
Defined.

(** C10. A falsy candidate (null, false, zero, the empty string, or
    nothing at all at that position) is not handed to the validator,
    whatever the validator is: its line gets [Failure] with a null record,
    and so it does in the list the flow builds. *)
Theorem falsy_candidate_is_absent (jsonResults : list value)
  (textLines : list jsstring) (line : jsstring) (i : nat) :
  truthy (index jsonResults i) = false →
  textLines !! i = Some line →
  (∀ validate,
     validateLine validate jsonResults line i
     = Ret (mkLineResult line VNull Failure))
  ∧ ∃ results,
      alignLines jsonResults textLines = Ret results
      ∧ results !! i = Some (mkLineResult line VNull Failure).
Proof.
  intros Hf Hl. split.
  - intros validate. unfold validateLine. by rewrite Hf.
  - eexists. split; [apply alignLines_verdicts|].
    rewrite list_lookup_imap, Hl. simpl. unfold lineVerdict. by rewrite Hf.
Qed.

Lemma falsy_candidate_is_absent_witness :
  (∀ validate,
     validateLine validate
       [VNull; VBool false; VNumber (mkNumber true 0 0); VString []]
       (str "Rude teller") 2
     = Ret (mkLineResult (str "Rude teller") VNull Failure))
  ∧ ∃ results,
      alignLines [VNull; VBool false; VNumber (mkNumber true 0 0); VString []]
        [str "a"; str "b"; str "Rude teller"; str "d"] = Ret results
      ∧ results !! 2 = Some (mkLineResult (str "Rude teller") VNull Failure).
Proof.
  apply (falsy_candidate_is_absent
           [VNull; VBool false; VNumber (mkNumber true 0 0); VString []]
           [str "a"; str "b"; str "Rude teller"; str "d"]
           (str "Rude teller") 2); reflexivity.
Defined.

Example falsy_values :
  map truthy [VUndefined; VNull; VBool false; VNumber (mkNumber false 0 0);
              VNumber (mkNumber true 0 0); VString []]
  = [false; false; false; false; false; false]
  ∧ map truthy [VBool true; VNumber (mkNumber false 1 0); VString (str "0");
                VArray []; VObject []]
    = [true; true; true; true; true].
Proof. split; reflexivity. Qed.

Example json_null_element_fails_its_line :
  JSON.parse (Sample.arrayText [str "null"; Sample.tellerRecord])
  = Ret (VArray [VNull; Sample.record (str "Cajero") (str "Odio") [Atencion] true])
  ∧ alignLines [VNull; Sample.record (str "Cajero") (str "Odio") [Atencion] true]
      [str "Great app"; str "Rude teller"]
    = Ret [ failureLine (str "Great app");
            mkLineResult (str "Rude teller")
              (Sample.record (str "Cajero") (str "Odio") [Atencion] true)
              Success ].
Proof. split; vm_compute; reflexivity. Qed.

(** ** The flow and its entry point *)

Section FlowFacts.

Variable model : jsstring -> outcome Error value.
Variable serialize : value -> jsstring.

Lemma jsonResultsOf_returns (output : value) :
  ∃ jsonResults, jsonResultsOf output = Ret jsonResults.
Proof.
  unfold jsonResultsOf.
  destruct output; simpl; eauto.
  destruct (JSON.parse s); simpl; eauto.
Qed.

Lemma jsonResultsOf_array (items : list value) :
  jsonResultsOf (VArray items) = Ret items.
Proof. reflexivity. Qed.

Lemma jsonResultsOf_unparsable (raw : jsstring) (e : JSON.SyntaxError) :
  JSON.parse raw = Throw e → jsonResultsOf (VString raw) = Ret [].
Proof. unfold jsonResultsOf. by intros ->. Qed.

Lemma flow_on_output (input : ExtractAndValidateFeedbackInput)
  (output : value) (jsonResults : list value) :
  model (renderPrompt input) = Ret output →
  jsonResultsOf output = Ret jsonResults →
  extractAndValidateFeedbackFlow model serialize input
  = Ret (mkOutput (rawResponseOf serialize output)
           (imap (lineVerdict (Zod.parse FeedbackSchema) jsonResults)
              (textLinesOf (textContent input)))).
Proof.
  intros Hm Hj. unfold extractAndValidateFeedbackFlow, extractFeedbackPrompt.
  rewrite Hm. simpl. rewrite Hj. simpl. rewrite alignLines_verdicts. done.
Qed.

Lemma flow_on_fault (input : ExtractAndValidateFeedbackInput) (error : Error) :
  model (renderPrompt input) = Throw error →
  extractAndValidateFeedbackFlow model serialize input = Throw error.
Proof.
  intros Hm. unfold extractAndValidateFeedbackFlow, extractFeedbackPrompt.
  by rewrite Hm.
Qed.

Lemma entry_on_output (input : ExtractAndValidateFeedbackInput)
  (output : value) (jsonResults : list value) :
  model (renderPrompt input) = Ret output →
  jsonResultsOf output = Ret jsonResults →
  extractAndValidateFeedback model serialize input
  = Ret (mkOutput (rawResponseOf serialize output)
           (imap (lineVerdict (Zod.parse FeedbackSchema) jsonResults)
              (textLinesOf (textContent input)))).
Proof.
  intros Hm Hj. unfold extractAndValidateFeedback.
  by rewrite (flow_on_output _ _ _ Hm Hj).
Qed.

Lemma entry_on_fault (input : ExtractAndValidateFeedbackInput) (error : Error) :
  model (renderPrompt input) = Throw error →
  extractAndValidateFeedback model serialize input
  = Ret (mkOutput (diagnostic error)
           (map failureLine (textLinesOf (textContent input)))).
Proof.
  intros Hm. unfold extractAndValidateFeedback.
  rewrite (flow_on_fault _ _ Hm). unfold diagnostic. simpl.
  by destruct (message error).
Qed.

(** The entry point always returns, and its results name the non-blank
    lines in order. *)
Lemma entry_returns (input : ExtractAndValidateFeedbackInput) :
  ∃ out,
    extractAndValidateFeedback model serialize input = Ret out
    ∧ map originalText (validatedResults out)
      = nonBlankLines (textContent input).
Proof.
  destruct (model (renderPrompt input)) as [output|error] eqn:Hm.
  - destruct (jsonResultsOf_returns output) as [js Hj].
    eexists. split; [by apply (entry_on_output _ _ _ Hm Hj)|].
    simpl. by rewrite verdicts_originalText, textLinesOf_nonBlank.
  - eexists. split; [by apply entry_on_fault|].
    simpl. rewrite <- textLinesOf_nonBlank.
    induction (textLinesOf _) as [|l ls IH]; simpl; [done | by rewrite IH].
Qed.

End FlowFacts.

Lemma verdicts_ignore_extras validate (candidates : list value)
  (textLines : list jsstring) :
  imap (lineVerdict validate (take (length textLines) candidates)) textLines
  = imap (lineVerdict validate candidates) textLines.
Proof.
  apply list_eq. intros j. rewrite !list_lookup_imap.
  destruct (textLines !! j) as [line|] eqn:Hl; simpl; [|done].
  apply lookup_lt_Some in Hl.
  unfold lineVerdict, index. by rewrite lookup_take_lt.
Qed.

(** C1. Whatever the model does, the entry point returns an output whose
    results are as many as the non-blank lines of the text and carry
    those lines in order; and a model's array cut after as many
    candidates as there are lines gives the same results as the whole
    array. *)
Theorem results_align_with_non_blank_lines
  (model : jsstring -> outcome Error value) (serialize : value -> jsstring)
  (input : ExtractAndValidateFeedbackInput) :
  (∃ out,
     extractAndValidateFeedback model serialize input = Ret out
     ∧ length (validatedResults out)
       = length (nonBlankLines (textContent input))
     ∧ map originalText (validatedResults out)
       = nonBlankLines (textContent input))
  ∧ ∀ candidates : list value,
      ∃ raw raw' results,
        length results = length (nonBlankLines (textContent input))
        ∧ extractAndValidateFeedback (λ _, Ret (VArray candidates))
            serialize input
          = Ret (mkOutput raw results)
        ∧ extractAndValidateFeedback
            (λ _, Ret (VArray (take (length (nonBlankLines (textContent input)))
                                 candidates)))
            serialize input
          = Ret (mkOutput raw' results).
Proof.
  split.
  - destruct (entry_returns model serialize input) as (out & Hout & Hlines).
    exists out. split; [done|]. split; [|done].
    by rewrite <- Hlines, length_map.
  - intros candidates. do 3 eexists. split; [|split].
    2: { by apply (entry_on_output _ serialize input (VArray candidates)
                     candidates). }
    + by rewrite length_imap, textLinesOf_nonBlank.
    + erewrite entry_on_output; [|done|apply jsonResultsOf_array].
      rewrite <- textLinesOf_nonBlank, verdicts_ignore_extras. done.
Qed.

(** C2. When the model call fails, the entry point still returns: the
    raw response is the diagnostic text, which is not empty and contains
    the fault's message, and every non-blank line is a [Failure] with a
    null record. *)
Theorem fault_is_contained
  (model : jsstring -> outcome Error value) (serialize : value -> jsstring)
  (input : ExtractAndValidateFeedbackInput) (error : Error) :
  model (renderPrompt input) = Throw error →
  ∃ out,
    extractAndValidateFeedback model serialize input = Ret out
    ∧ rawResponse out = diagnostic error
    ∧ rawResponse out ≠ []
    ∧ (∃ before after, rawResponse out = before ++ message error ++ after)
    ∧ validatedResults out
      = map (λ line, mkLineResult line VNull Failure)
          (nonBlankLines (textContent input)).
Proof.
  intros Hm. eexists. split; [by apply entry_on_fault|]. simpl.
  split; [done|]. split; [done|]. split.
  - unfold diagnostic. destruct (message error) as [|c m].
    + exists (str "Error en la evaluaci" ++ [243%N] ++ str "n: "),
             (str "Error desconocido del motor de IA"). done.
    + exists (str "Error en la evaluaci" ++ [243%N] ++ str "n: "), [].
      by rewrite app_nil_r.
  - by rewrite textLinesOf_nonBlank.
Qed.

Lemma fault_is_contained_witness :
  ∃ out,
    extractAndValidateFeedback (Sample.fails (str "quota exceeded"))
      Sample.anySerializer (mkInput (str "x") Sample.withBlankLine) = Ret out
    ∧ rawResponse out = diagnostic (mkError (str "quota exceeded"))
    ∧ rawResponse out ≠ []
    ∧ (∃ before after,
         rawResponse out = before ++ str "quota exceeded" ++ after)
    ∧ validatedResults out
      = map (λ line, mkLineResult line VNull Failure)
          (nonBlankLines Sample.withBlankLine).
Proof.
  apply (fault_is_contained (Sample.fails (str "quota exceeded"))
           Sample.anySerializer (mkInput (str "x") Sample.withBlankLine)
           (mkError (str "quota exceeded"))).
  reflexivity.
Defined.

(** ** The invariant of line results *)

Lemma failureLine_invariant (line : jsstring) :
  line_invariant (failureLine line).
Proof.
  split; simpl; [|done]. split; [discriminate | by intros [? _]].
Qed.

Lemma lineVerdict_invariant (jsonResults : list value) (i : nat)
  (line : jsstring) :
  line_invariant (lineVerdict (Zod.parse FeedbackSchema) jsonResults i line).
Proof.
  unfold lineVerdict. destruct (truthy _); [|apply failureLine_invariant].
  destruct (Zod.parse _ _) as [r|e] eqn:Hp; [|apply failureLine_invariant].
  apply FeedbackSchema_parse_result in Hp as (Hs & _ & Hn & _).
  split; simpl; [done | discriminate].
Qed.

Lemma parseOrNull_cases (item : value) :
  LineByLine.parseOrNull item = VNull ∨ satisfies_schema (LineByLine.parseOrNull item).
Proof.
  unfold LineByLine.parseOrNull.
  destruct (Zod.parse FeedbackSchema item) as [r|e] eqn:Hp; [|by left].
  right. by apply FeedbackSchema_parse_result in Hp as (Hs & _).
Qed.

Lemma variant_candidates (rawResponse : jsstring) (textLines : list jsstring) :
  Forall (λ v, v = VNull ∨ satisfies_schema v)
    (LineByLine.jsonResultsOf rawResponse textLines).
Proof.
  unfold LineByLine.jsonResultsOf, LineByLine.parseWhole.
  destruct (JSON.parse rawResponse) as [[| | | | |items|]|e]; simpl;
    try (apply Forall_forall; intros v Hv%list_elem_of_In;
         apply in_map_iff in Hv as (line & <- & _);
         unfold LineByLine.parseLine; destruct (JSON.parse line);
         [apply parseOrNull_cases | by left]).
  apply Forall_forall. intros v Hv%list_elem_of_In.
  apply in_map_iff in Hv as (item & <- & _). apply parseOrNull_cases.
Qed.

Lemma variant_alignLine_invariant (rawResponse : jsstring)
  (textLines : list jsstring) (i : nat) (line : jsstring) :
  line_invariant
    (LineByLine.alignLine (LineByLine.jsonResultsOf rawResponse textLines) i line).
Proof.
  unfold LineByLine.alignLine, index.
  destruct (LineByLine.jsonResultsOf rawResponse textLines !! i) as [v|] eqn:Hv;
    simpl; [|apply failureLine_invariant].
  pose proof (variant_candidates rawResponse textLines) as Hall.
  rewrite Forall_forall in Hall.
  destruct (Hall v) as [-> | Hs].
  { apply list_elem_of_lookup. eauto. }
  - apply failureLine_invariant.
  - unfold LineByLine.or_null. rewrite (satisfies_schema_truthy _ Hs).
    rewrite (satisfies_schema_truthy _ Hs).
    split; simpl; [|discriminate].
    split; [|done]. intros _. split; [|done].
    destruct Hs as (? & -> & _). discriminate.
Qed.

(** C3. In every output that a path of the pipeline returns, each line
    result is [Success] exactly when its record is there and satisfies
    the schema, and a [Failure] has a null record. *)
Theorem line_results_are_coherent (out : ExtractAndValidateFeedbackOutput)
  (r : LineResult) :
  produced out → In r (validatedResults out) → line_invariant r.
Proof.
  intros [(model & serialize & input & Hout) | (model & input & Hout)] Hr.
  - destruct (model (renderPrompt input)) as [output|error] eqn:Hm.
    + destruct (jsonResultsOf_returns output) as [js Hj].
      rewrite (entry_on_output _ serialize _ _ _ Hm Hj) in Hout.
      injection Hout as <-. simpl in Hr.
      apply list_elem_of_In, list_elem_of_lookup in Hr as [j Hr].
      rewrite list_lookup_imap in Hr.
      destruct (textLinesOf _ !! j); simpl in Hr; [|done].
      injection Hr as <-. apply lineVerdict_invariant.
    + rewrite (entry_on_fault _ serialize _ _ Hm) in Hout.
      injection Hout as <-. simpl in Hr.
      apply in_map_iff in Hr as (line & <- & _). apply failureLine_invariant.
  - unfold LineByLine.extractAndValidateFeedback,
      LineByLine.extractAndValidateFeedbackFlow, LineByLine.extractFeedbackPrompt in Hout.
    destruct (model _) as [raw|error]; simpl in Hout; [|done].
    injection Hout as <-. simpl in Hr.
    apply list_elem_of_In, list_elem_of_lookup in Hr as [j Hr].
    rewrite list_lookup_imap in Hr.
    destruct (split 10 (textContent input) !! j); simpl in Hr; [|done].
    injection Hr as <-. apply variant_alignLine_invariant.
Qed.

Lemma line_results_are_coherent_witness :
  line_invariant
    (mkLineResult (str "Great app")
       (Sample.record (str "App") (str "Amor") [str "App"] false) Success).
Proof.
  apply (line_results_are_coherent
           (mkOutput (Sample.arrayText [Sample.appRecord])
              [ mkLineResult (str "Great app")
                  (Sample.record (str "App") (str "Amor") [str "App"] false)
                  Success;
                failureLine (str "Rude teller") ])).
  - left.
    exists (Sample.replies (VString (Sample.arrayText [Sample.appRecord]))),
           Sample.anySerializer, (mkInput (str "x") Sample.twoLines).
    vm_compute. reflexivity.
  - simpl. auto.
Defined.

(** ** Recovery of candidates from a text that is not JSON *)

Lemma verdicts_without_candidates validate (textLines : list jsstring) :
  imap (lineVerdict validate []) textLines = map failureLine textLines.
Proof.
  apply list_eq. intros j.
  rewrite list_lookup_imap, list_lookup_fmap.
  destruct (textLines !! j); done.
Qed.

(** C4, as the flow has it. When the model's text does not parse as
    JSON, no candidate is recovered: the text is not read line by line,
    every non-blank line of the input is a [Failure] with a null record,
    and the raw response is the text itself. *)
Theorem unparsable_text_yields_no_candidate
  (model : jsstring -> outcome Error value) (serialize : value -> jsstring)
  (input : ExtractAndValidateFeedbackInput) (raw : jsstring)
  (e : JSON.SyntaxError) :
  model (renderPrompt input) = Ret (VString raw) →
  JSON.parse raw = Throw e →
  jsonResultsOf (VString raw) = Ret []
  ∧ extractAndValidateFeedback model serialize input
    = Ret (mkOutput raw
             (map (λ line, mkLineResult line VNull Failure)
                (nonBlankLines (textContent input)))).
Proof.
  intros Hm He.
  pose proof (jsonResultsOf_unparsable raw e He) as Hj.
  split; [done|].
  rewrite (entry_on_output _ serialize _ _ _ Hm Hj). simpl.
  by rewrite textLinesOf_nonBlank, verdicts_without_candidates.
Qed.

Lemma unparsable_text_yields_no_candidate_witness :
  jsonResultsOf (VString (str "not json")) = Ret []
  ∧ extractAndValidateFeedback (Sample.replies (VString (str "not json")))
      Sample.anySerializer (mkInput (str "x") Sample.twoLines)
    = Ret (mkOutput (str "not json")
             (map (λ line, mkLineResult line VNull Failure)
                (nonBlankLines Sample.twoLines))).
Proof.
  apply (unparsable_text_yields_no_candidate
           (Sample.replies (VString (str "not json"))) Sample.anySerializer
           (mkInput (str "x") Sample.twoLines) (str "not json")
           JSON.mkSyntaxError); reflexivity.
Defined.

(** C4, as stated, fails: on a text of two lines, each of them a valid
    record, the text as a whole does not parse, line by line recovery
    would give the two records, and the flow has no candidate and fails
    both lines. *)
Lemma per_line_recovery_is_not_performed :
  JSON.parse (Sample.appRecord ++ [10%N] ++ Sample.tellerRecord)
  = Throw JSON.mkSyntaxError
  ∧ perLineCandidates (Sample.appRecord ++ [10%N] ++ Sample.tellerRecord)
    = [ Sample.record (str "App") (str "Amor") [str "App"] false;
        Sample.record (str "Cajero") (str "Odio") [Atencion] true ]
  ∧ jsonResultsOf
      (VString (Sample.appRecord ++ [10%N] ++ Sample.tellerRecord))
    = Ret []
  ∧ extractAndValidateFeedback
      (Sample.replies
         (VString (Sample.appRecord ++ [10%N] ++ Sample.tellerRecord)))
      Sample.anySerializer (mkInput (str "x") Sample.twoLines)
    = Ret (mkOutput (Sample.appRecord ++ [10%N] ++ Sample.tellerRecord)
             [ mkLineResult (str "Great app") VNull Failure;
               mkLineResult (str "Rude teller") VNull Failure ]).
Proof. repeat split; vm_compute; reflexivity. Qed.

(** ** The raw response *)

(** What the raw response is, case by case on what the prompt call
    handed over. *)
Lemma rawResponse_cases
  (model : jsstring -> outcome Error value) (serialize : value -> jsstring)
  (input : ExtractAndValidateFeedbackInput) (output : value) :
  model (renderPrompt input) = Ret output →
  ∃ out,
    extractAndValidateFeedback model serialize input = Ret out
    ∧ validatedResults out
      = match jsonResultsOf output with
        | Ret jsonResults =>
            imap (lineVerdict (Zod.parse FeedbackSchema) jsonResults)
              (textLinesOf (textContent input))
        | Throw _ => []
        end
    ∧ rawResponse out = rawResponseOf serialize output.
Proof.
  intros Hm. destruct (jsonResultsOf_returns output) as [js Hj].
  eexists. split; [by apply (entry_on_output _ serialize _ _ _ Hm Hj)|].
  by rewrite Hj.
Qed.

(** C7. Outside the fault path the raw response shows what the prompt
    call handed over and nothing made up: a string as it is, whether it
    parses or not, and any other value, null included, as its
    serialization. The prompt call hands over a value or null, never
    [undefined], and the serialization of a value is never the empty
    text. *)
Theorem rawResponse_shows_model_output
  (model : jsstring -> outcome Error value) (serialize : value -> jsstring)
  (input : ExtractAndValidateFeedbackInput) (output : value) :
  model (renderPrompt input) = Ret output →
  output ≠ VUndefined →
  (∀ v, serialize v ≠ []) →
  ∃ out,
    extractAndValidateFeedback model serialize input = Ret out
    ∧ rawResponse out
      = match output with
        | VString s => s
        | _ => serialize output
        end.
Proof.
  intros Hm Hdef Hser.
  destruct (rawResponse_cases model serialize input output Hm)
    as (out & Hout & _ & Hraw).
  exists out. split; [done|]. rewrite Hraw. unfold rawResponseOf.
  pose proof (Hser output) as Hne.
  destruct output; try done; simpl; by destruct (serialize _).
Qed.

Lemma rawResponse_shows_model_output_witness :
  ∃ out,
    extractAndValidateFeedback (Sample.replies (VString (str "not json")))
      Sample.anySerializer (mkInput (str "x") Sample.twoLines) = Ret out
    ∧ rawResponse out = str "not json".
Proof.
  apply (rawResponse_shows_model_output
           (Sample.replies (VString (str "not json"))) Sample.anySerializer
           (mkInput (str "x") Sample.twoLines) (VString (str "not json"))).
  - reflexivity.
  - discriminate.
  - intros v. discriminate.
Defined.

(** An output of null is shown as the text the serializer gives for
    null, and every line fails. *)
Example null_output_is_shown_serialized :
  extractAndValidateFeedback (Sample.replies VNull) Sample.anySerializer
    (mkInput (str "x") Sample.twoLines)
  = Ret (mkOutput (str "null")
           [ mkLineResult (str "Great app") VNull Failure;
             mkLineResult (str "Rude teller") VNull Failure ]).
Proof. reflexivity. Qed.

(** ** What the caller and the model call are given *)

(** C8, as the code has it. [runEvaluation] trims the instruction before
    it calls the entry point; the model is consulted on one prompt, the
    template filled with the trimmed instruction and with the text as it
    is; the non-blank lines of the text are what the results are aligned
    with. *)
Theorem runEvaluation_trims_and_aligns
  (model : jsstring -> outcome Error value) (serialize : value -> jsstring)
  (systemInstruction content : jsstring) :
  trim systemInstruction ≠ [] →
  content ≠ [] →
  ∃ record,
    runEvaluation model serialize systemInstruction (Some content)
    = Some record
    ∧ runEvaluation
        (λ _, model (template_before ++ trim systemInstruction
                     ++ template_between ++ content ++ template_after))
        serialize systemInstruction (Some content)
      = Some record
    ∧ record_systemInstruction record = trim systemInstruction
    ∧ map originalText (validatedResults (results record))
      = nonBlankLines content
    ∧ total record = length (nonBlankLines content).
Proof.
  intros Hs Hc. unfold runEvaluation.
  destruct (trim systemInstruction) as [|c s] eqn:Ht; [done|].
  destruct content as [|d content]; [done|].
  set (input := mkInput (c :: s) (d :: content)).
  assert (Hsame :
    extractAndValidateFeedback
      (λ _, model (template_before ++ (c :: s) ++ template_between
                   ++ (d :: content) ++ template_after)) serialize input
    = extractAndValidateFeedback model serialize input).
  { unfold extractAndValidateFeedback, extractAndValidateFeedbackFlow,
      extractFeedbackPrompt. done. }
  rewrite Hsame.
  destruct (entry_returns model serialize input) as (out & -> & Hlines).
  subst input. simpl in Hlines.
  eexists. split; [done|]. split; [done|]. simpl.
  split; [done|]. split; [done|].
  by rewrite <- Hlines, length_map.
Qed.

Lemma runEvaluation_trims_and_aligns_witness :
  ∃ record,
    runEvaluation Sample.echoes Sample.anySerializer (str "  Extrae.  ")
      (Some Sample.withBlankLine)
    = Some record
    ∧ runEvaluation
        (λ _, Sample.echoes
                (template_before ++ trim (str "  Extrae.  ")
                 ++ template_between ++ Sample.withBlankLine
                 ++ template_after))
        Sample.anySerializer (str "  Extrae.  ") (Some Sample.withBlankLine)
      = Some record
    ∧ record_systemInstruction record = trim (str "  Extrae.  ")
    ∧ map originalText (validatedResults (results record))
      = nonBlankLines Sample.withBlankLine
    ∧ total record = length (nonBlankLines Sample.withBlankLine).
Proof.
  apply (runEvaluation_trims_and_aligns Sample.echoes Sample.anySerializer
           (str "  Extrae.  ") Sample.withBlankLine).
  - vm_compute. discriminate.
  - vm_compute. discriminate.
Defined.

(** C8, as stated, fails: two texts with the same non-blank lines give
    two different prompts, so the model call is given the text and not
    the line list; and the entry point embeds the instruction it is
    given, untrimmed. *)
Lemma model_call_is_given_the_raw_text :
  textLinesOf Sample.withBlankLine = textLinesOf Sample.twoLines
  ∧ extractFeedbackPrompt Sample.echoes (mkInput (str "x") Sample.withBlankLine)
    ≠ extractFeedbackPrompt Sample.echoes (mkInput (str "x") Sample.twoLines)
  ∧ extractFeedbackPrompt Sample.echoes (mkInput (str " x ") Sample.twoLines)
    = Ret (VString (template_before ++ str " x " ++ template_between
                    ++ Sample.twoLines ++ template_after)).
Proof.
  split; [reflexivity|]. split; [|reflexivity].
  vm_compute. discriminate.
Qed.

(** ** The scenarios of the specification *)

Example scenario_A_all_lines_succeed :
  extractAndValidateFeedback
    (Sample.replies
       (VString (Sample.arrayText [Sample.appRecord; Sample.tellerRecord])))
    Sample.anySerializer (mkInput (str "x") Sample.twoLines)
  = Ret (mkOutput (Sample.arrayText [Sample.appRecord; Sample.tellerRecord])
           [ mkLineResult (str "Great app")
               (Sample.record (str "App") (str "Amor") [str "App"] false)
               Success;
             mkLineResult (str "Rude teller")
               (Sample.record (str "Cajero") (str "Odio") [Atencion] true)
               Success ]).
Proof. vm_compute. reflexivity. Qed.

Example scenario_B_text_that_is_not_json :
  extractAndValidateFeedback (Sample.replies (VString (str "not json")))
    Sample.anySerializer (mkInput (str "x") Sample.twoLines)
  = Ret (mkOutput (str "not json")
           [ failureLine (str "Great app"); failureLine (str "Rude teller") ]).
Proof. vm_compute. reflexivity. Qed.

Example scenario_C_value_outside_the_enum :
  extractAndValidateFeedback
    (Sample.replies
       (VString
          (Sample.arrayText
             [ Sample.appRecord;
               Sample.recordText (str "Cajero") (str "Indiferente")
                 [Atencion] true ])))
    Sample.anySerializer (mkInput (str "x") Sample.twoLines)
  = Ret (mkOutput
           (Sample.arrayText
              [ Sample.appRecord;
                Sample.recordText (str "Cajero") (str "Indiferente")
                  [Atencion] true ])
           [ mkLineResult (str "Great app")
               (Sample.record (str "App") (str "Amor") [str "App"] false)
               Success;
             failureLine (str "Rude teller") ]).
Proof. vm_compute. reflexivity. Qed.

Example scenario_D_fewer_candidates_than_lines :
  extractAndValidateFeedback
    (Sample.replies (VString (Sample.arrayText [Sample.appRecord])))
    Sample.anySerializer
    (mkInput (str "x") (Sample.twoLines ++ [10%N] ++ str "Slow ATM"))
  = Ret (mkOutput (Sample.arrayText [Sample.appRecord])
           [ mkLineResult (str "Great app")
               (Sample.record (str "App") (str "Amor") [str "App"] false)
               Success;
             failureLine (str "Rude teller");
             failureLine (str "Slow ATM") ]).
Proof. vm_compute. reflexivity. Qed.

(** An output that is already a value: an array is used as it is, a lone
    object stands for a one-element array, anything else gives no
    candidate. *)
Example structured_outputs :
  jsonResultsOf (VArray [VNull; VBool true]) = Ret [VNull; VBool true]
  ∧ jsonResultsOf (VObject []) = Ret [VObject []]
  ∧ jsonResultsOf VNull = Ret []
  ∧ jsonResultsOf (VNumber (mkNumber false 7 0)) = Ret []
  ∧ jsonResultsOf (VString (str "{}")) = Ret [VObject []]
  ∧ jsonResultsOf (VString (str "7")) = Ret [].
Proof. repeat split; reflexivity. Qed.

(** ** The JSON reader on a few texts *)

Example parse_nested_text :
  JSON.parse (str " [1, -2.50e-1, true, null, [], {" ++ quoted (str "k")
              ++ str " : " ++ quoted (str "a\nb\u00f3") ++ str "}] ")
  = Ret (VArray [ VNumber (mkNumber false 1 0);
                  VNumber (mkNumber true 250 (-3));
                  VBool true; VNull; VArray [];
                  VObject [(str "k", VString [97; 10; 98; 243]%N)] ]).
Proof. vm_compute. reflexivity. Qed.

Example parse_rejects :
  map JSON.parse
    [ str ""; str "not json"; str "01"; str "[1,]"; str "{,}"; str "nul";
      str "1 2"; str "[1" ; quoted (str "a" ++ [10%N]); str "1." ]
  = repeat (Throw JSON.mkSyntaxError) 10.
Proof. vm_compute. reflexivity. Qed.

Example parse_numbers :
  map JSON.parse
    [ str "-"; str "1e"; str "1e+"; str ".5"; str "+1"; str "0x1";
      str "1.e5"; str "--1"; str "00"; str "-01" ]
  = repeat (Throw JSON.mkSyntaxError) 10
  ∧ map JSON.parse [ str "-0.0E+2"; str "1E5"; str "10"; str "0.5e-7" ]
    = [ Ret (VNumber (mkNumber true 0 1)); Ret (VNumber (mkNumber false 1 5));
        Ret (VNumber (mkNumber false 10 0));
        Ret (VNumber (mkNumber false 5 (-8))) ].
Proof. split; vm_compute; reflexivity. Qed.

Example parse_deep_and_long :
  JSON.parse (str "[[[[[[[[]]]]]]]]")
  = Ret (VArray [VArray [VArray [VArray [VArray [VArray [VArray [VArray []]]]]]]])
  ∧ JSON.parse (str "[0,0,0,0,0,0,0,0,0,0,0,0,0,0,0,0]")
    = Ret (VArray (repeat (VNumber (mkNumber false 0 0)) 16))
  ∧ JSON.parse (str "[[0,[0]],[[0],0],[[[0]]]]")
    = Ret (VArray
             [ VArray [VNumber (mkNumber false 0 0);
                       VArray [VNumber (mkNumber false 0 0)]];
               VArray [VArray [VNumber (mkNumber false 0 0)];
                       VNumber (mkNumber false 0 0)];
               VArray [VArray [VArray [VNumber (mkNumber false 0 0)]]] ]).
Proof. repeat split; vm_compute; reflexivity. Qed.

Example parse_repeated_key :
  JSON.parse (str "{" ++ quoted (str "a") ++ str ":1," ++ quoted (str "b")
              ++ str ":2," ++ quoted (str "a") ++ str ":3}")
  = Ret (VObject [ (str "a", VNumber (mkNumber false 3 0));
                   (str "b", VNumber (mkNumber false 2 0)) ]).
Proof. vm_compute. reflexivity. Qed.

Example numbers_that_are_zero :
  map (λ text, match JSON.parse text with
               | Ret v => Some (truthy v)
               | Throw _ => None
               end)
    [ str "0"; str "-0"; str "0.0e5"; str "1e-400"; str "5e-324"; str "1" ]
  = [Some false; Some false; Some false; Some false; Some true; Some true].
Proof. vm_compute. reflexivity. Qed.

(** ** Strings *)

Example trim_and_split :
  trim ([9; 32; 160]%N ++ str "a b" ++ [13; 10; 65279]%N) = str "a b"
  ∧ split 10 (str "a" ++ [13; 10; 10]%N ++ str "b" ++ [10%N])
    = [str "a" ++ [13%N]; []; str "b"; []]
  ∧ split 10 [] = [[]]
  ∧ textLinesOf (str "a" ++ [13; 10; 32; 10]%N ++ str " b" ++ [10%N])
    = [str "a" ++ [13%N]; str " b"].
Proof. repeat split; reflexivity. Qed.

(** ** The line-by-line variant *)

(** It has one result per line of the text, blank lines included. *)
Lemma variant_keeps_blank_lines
  (model : jsstring -> outcome Error jsstring)
  (input : ExtractAndValidateFeedbackInput) (rawResponse : jsstring) :
  model (LineByLine.renderPrompt input) = Ret rawResponse →
  ∃ results,
    LineByLine.extractAndValidateFeedback model input
    = Ret (mkOutput rawResponse results)
    ∧ map originalText results = split 10 (textContent input).
Proof.
  intros Hm.
  unfold LineByLine.extractAndValidateFeedback,
    LineByLine.extractAndValidateFeedbackFlow, LineByLine.extractFeedbackPrompt.
  rewrite Hm. simpl. eexists. split; [done|].
  apply list_eq. intros j. rewrite list_lookup_fmap, list_lookup_imap.
  by destruct (split 10 (textContent input) !! j).
Qed.

(** Its fallback reads the lines of the input text, not of the
    response. *)
Lemma variant_fallback_reads_the_input (rawResponse : jsstring)
  (textLines : list jsstring) (e : LineByLine.Caught) :
  LineByLine.parseWhole rawResponse = Throw e →
  LineByLine.jsonResultsOf rawResponse textLines
  = map LineByLine.parseLine textLines.
Proof. unfold LineByLine.jsonResultsOf. by intros ->. Qed.

(** It lets a fault of the model call through. *)
Lemma variant_propagates_faults
  (model : jsstring -> outcome Error jsstring)
  (input : ExtractAndValidateFeedbackInput) (error : Error) :
  model (LineByLine.renderPrompt input) = Throw error →
  LineByLine.extractAndValidateFeedback model input = Throw error.
Proof.
  intros Hm.
  unfold LineByLine.extractAndValidateFeedback,
    LineByLine.extractAndValidateFeedbackFlow, LineByLine.extractFeedbackPrompt.
  by rewrite Hm.
Qed.

Example variant_on_a_text_with_a_blank_line :
  LineByLine.extractAndValidateFeedback (λ _, Ret (str "not json"))
    (mkInput (str "x") (Sample.appRecord ++ [10%N; 10%N] ++ str "Rude teller"))
  = Ret (mkOutput (str "not json")
           [ mkLineResult Sample.appRecord
               (Sample.record (str "App") (str "Amor") [str "App"] false)
               Success;
             failureLine [];
             failureLine (str "Rude teller") ]).
Proof. vm_compute. reflexivity. Qed.

(** ** The fuel of the JSON reader

    The reader gives the same result for any amount of fuel from twice
    the length of the text, and two more, on: what [JSON.parse] returns is
    what the readers find, never a shortage of fuel. *)

Lemma skip_ws_length (s : jsstring) : length (JSON.skip_ws s) ≤ length s.
Proof.
  induction s as [|c r IH]; simpl; [done|].
  destruct (JSON.isJsonSpace c); simpl; lia.
Qed.

Lemma after_length (c : N) (s r : jsstring) :
  JSON.after c s = Some r → length s = S (length r).
Proof.
  destruct s as [|x s]; simpl; [done|].
  destruct (N.eqb x c); [|done]. by intros [= ->].
Qed.

Lemma read_string_length (s body rest : jsstring) :
  JSON.read_string s = Some (body, rest) → length rest < length s.
Proof.
  remember (length s) as n eqn:Hn. revert s body rest Hn.
  induction n as [n IH] using lt_wf_ind. intros s body rest -> H.
  destruct s as [|c r]; simpl in H; [done|].
  repeat case_match; simplify_eq; simpl; try lia.
  all: match goal with
       | H : JSON.read_string ?x = Some _ |- _ =>
           eapply IH in H; [| |reflexivity]; simpl in *; lia
       end.
Qed.

Lemma read_digits_length (s : jsstring) (acc : N) (len : nat)
  (v : N) (len' : nat) (r : jsstring) :
  JSON.read_digits acc len s = (v, len', r) →
  length r + len' = length s + len.
Proof.
  revert acc len. induction s as [|c s IH]; intros acc len H; simpl in H.
  - by simplify_eq.
  - destruct (JSON.digit_of c).
    + apply IH in H. simpl. lia.
    + simplify_eq. simpl. lia.
Qed.

Lemma read_int_length (s : jsstring) (v : N) (r : jsstring) :
  JSON.read_int s = Some (v, r) → length r < length s.
Proof.
  unfold JSON.read_int.
  destruct (JSON.after 48 s) as [r'|] eqn:Ha.
  - intros [= <- <-]. apply after_length in Ha. lia.
  - destruct (JSON.read_digits 0 0 s) as [[v' [|len]] r'] eqn:Hd; [done|].
    intros [= <- <-]. apply read_digits_length in Hd. lia.
Qed.

Lemma read_frac_length (i : N) (s : jsstring) (v : N) (len : nat)
  (r : jsstring) :
  JSON.read_frac i s = Some (v, len, r) → length r ≤ length s.
Proof.
  unfold JSON.read_frac.
  destruct (JSON.after 46 s) as [r'|] eqn:Ha.
  - destruct (JSON.read_digits i 0 r') as [[v' [|len']] r''] eqn:Hd; [done|].
    intros [= <- <- <-]. apply read_digits_length in Hd.
    apply after_length in Ha. lia.
  - by intros [= <- <- <-].
Qed.

Lemma read_exp_length (s : jsstring) (e : Z) (r : jsstring) :
  JSON.read_exp s = Some (e, r) → length r ≤ length s.
Proof.
  unfold JSON.read_exp. destruct s as [|c s]; [by intros [= <- <-]|].
  destruct (N.eqb c 101 || N.eqb c 69); [|by intros [= <- <-]].
  destruct (JSON.after 45 s) as [r1|] eqn:Hm;
    [|destruct (JSON.after 43 s) as [r1|] eqn:Hp].
  all: destruct (JSON.read_digits 0 0 _) as [[v' [|len']] r''] eqn:Hd;
    [done|]; intros [= <- <-]; apply read_digits_length in Hd.
  - apply after_length in Hm. simpl. lia.
  - apply after_length in Hp. simpl. lia.
  - simpl. lia.
Qed.

Lemma read_number_length (s : jsstring) (n : number) (r : jsstring) :
  JSON.read_number s = Some (n, r) → length r < length s.
Proof.
  unfold JSON.read_number.
  destruct (JSON.after 45 s) as [s1|] eqn:Ha.
  - apply after_length in Ha.
    destruct (JSON.read_int s1) as [[i s2]|] eqn:Hi; [|done].
    destruct (JSON.read_frac i s2) as [[[m flen] s3]|] eqn:Hf; [|done].
    destruct (JSON.read_exp s3) as [[e s4]|] eqn:He; [|done].
    intros [= <- <-]. apply read_int_length in Hi.
    apply read_frac_length in Hf. apply read_exp_length in He. lia.
  - destruct (JSON.read_int s) as [[i s2]|] eqn:Hi; [|done].
    destruct (JSON.read_frac i s2) as [[[m flen] s3]|] eqn:Hf; [|done].
    destruct (JSON.read_exp s3) as [[e s4]|] eqn:He; [|done].
    intros [= <- <-]. apply read_int_length in Hi.
    apply read_frac_length in Hf. apply read_exp_length in He. lia.
Qed.

Lemma strip_prefix_length (p s r : jsstring) :
  JSON.strip_prefix p s = Some r → length r + length p = length s.
Proof.
  unfold JSON.strip_prefix.
  destruct (eqb_str p (take (length p) s)) eqn:He; [|done].
  intros [= <-]. apply eqb_str_eq in He.
  apply (f_equal length) in He. rewrite length_take in He.
  rewrite length_drop. lia.
Qed.

Section Readers.

Variable value_ : jsstring -> option (value * jsstring).
Variable elements : jsstring -> option (list value * jsstring).
Variable members : jsstring -> list (jsstring * value)
                   -> option (list (jsstring * value) * jsstring).

Hypothesis value_length :
  ∀ s v r, value_ s = Some (v, r) → length r < length s.
Hypothesis elements_length :
  ∀ s vs r, elements s = Some (vs, r) → length r < length s.
Hypothesis members_length :
  ∀ s acc ps r, members s acc = Some (ps, r) → length r < length s.

Lemma value_step_length (s : jsstring) (v : value) (r : jsstring) :
  JSON.value_step elements members s = Some (v, r) → length r < length s.
Proof using elements_length members_length.
  unfold JSON.value_step. pose proof (skip_ws_length s) as Hs.
  destruct (JSON.skip_ws s) as [|c r0]; [done|]. simpl in Hs.
  pose proof (skip_ws_length r0) as Hr0.
  intros H. repeat case_match; simplify_eq.
  all: repeat match goal with
       | H : JSON.after _ _ = Some _ |- _ => apply after_length in H
       | H : elements _ = Some _ |- _ => apply elements_length in H
       | H : members _ _ = Some _ |- _ => apply members_length in H
       | H : JSON.read_string _ = Some _ |- _ => apply read_string_length in H
       | H : JSON.read_number _ = Some _ |- _ => apply read_number_length in H
       | H : JSON.strip_prefix _ _ = Some _ |- _ =>
           apply strip_prefix_length in H
       end; simpl in *; lia.
Qed.

Lemma elements_step_length (s : jsstring) (vs : list value) (r : jsstring) :
  JSON.elements_step value_ elements s = Some (vs, r) → length r < length s.
Proof using value_length elements_length.
  unfold JSON.elements_step.
  destruct (value_ s) as [[v r0]|] eqn:Hv; [|done].
  apply value_length in Hv. pose proof (skip_ws_length r0) as Hr0.
  intros H. repeat case_match; simplify_eq.
  all: repeat match goal with
       | H : JSON.after _ _ = Some _ |- _ => apply after_length in H
       | H : elements _ = Some _ |- _ => apply elements_length in H
       end; lia.
Qed.

Lemma members_step_length (s : jsstring) (acc ps : list (jsstring * value))
  (r : jsstring) :
  JSON.members_step value_ members s acc = Some (ps, r) →
  length r < length s.
Proof using value_length members_length.
  unfold JSON.members_step. pose proof (skip_ws_length s) as Hs.
  destruct (JSON.after 34 (JSON.skip_ws s)) as [r0|] eqn:H0; [|done].
  destruct (JSON.read_string r0) as [[k r1]|] eqn:H1; [|done].
  pose proof (skip_ws_length r1) as Hr1.
  destruct (JSON.after 58 (JSON.skip_ws r1)) as [r2|] eqn:H2; [|done].
  destruct (value_ r2) as [[v r3]|] eqn:H3; [|done].
  pose proof (skip_ws_length r3) as Hr3.
  apply after_length in H0, H2. apply read_string_length in H1.
  apply value_length in H3.
  intros H. repeat case_match; simplify_eq.
  all: repeat match goal with
       | H : JSON.after _ _ = Some _ |- _ => apply after_length in H
       | H : members _ _ = Some _ |- _ => apply members_length in H
       end; lia.
Qed.

End Readers.

Lemma read_lengths (fuel : nat) :
  (∀ s v r, JSON.read_value fuel s = Some (v, r) → length r < length s)
  ∧ (∀ s vs r, JSON.read_elements fuel s = Some (vs, r) → length r < length s)
  ∧ (∀ s acc ps r,
       JSON.read_members fuel s acc = Some (ps, r) → length r < length s).
Proof.
  induction fuel as [|fuel (IHv & IHe & IHm)]; [by repeat split|].
  repeat split.
  - intros s v r. by apply value_step_length.
  - intros s vs r. by apply elements_step_length.
  - intros s acc ps r. by apply members_step_length.
Qed.

(** A reader's step only calls its arguments on shorter texts (and, for
    the elements, the value reader on the same text). *)
Lemma value_step_ext elements elements' members members' (s : jsstring) :
  (∀ r, length r < length s → elements r = elements' r) →
  (∀ r acc, length r < length s → members r acc = members' r acc) →
  JSON.value_step elements members s = JSON.value_step elements' members' s.
Proof.
  intros He Hm. unfold JSON.value_step. pose proof (skip_ws_length s) as Hs.
  destruct (JSON.skip_ws s) as [|c r]; [done|]. simpl in Hs.
  rewrite He, Hm by lia. done.
Qed.

Lemma elements_step_ext value_ value_' elements elements' (s : jsstring) :
  value_ s = value_' s →
  (∀ v r, value_ s = Some (v, r) → length r < length s) →
  (∀ r, length r < length s → elements r = elements' r) →
  JSON.elements_step value_ elements s
  = JSON.elements_step value_' elements' s.
Proof.
  intros Hv Hlen He. unfold JSON.elements_step. rewrite <- Hv.
  destruct (value_ s) as [[v r]|]; [|done].
  specialize (Hlen v r eq_refl). pose proof (skip_ws_length r) as Hr.
  destruct (JSON.after 93 _); [done|].
  destruct (JSON.after 44 _) as [r'|] eqn:Ha; [|done].
  apply after_length in Ha. rewrite He by lia. done.
Qed.

Lemma members_step_ext value_ value_' members members' (s : jsstring)
  (acc : list (jsstring * value)) :
  (∀ r, length r < length s → value_ r = value_' r) →
  (∀ r v r', value_ r = Some (v, r') → length r' < length r) →
  (∀ r acc', length r < length s → members r acc' = members' r acc') →
  JSON.members_step value_ members s acc
  = JSON.members_step value_' members' s acc.
Proof.
  intros Hv Hlen Hm. unfold JSON.members_step.
  pose proof (skip_ws_length s) as Hs.
  destruct (JSON.after 34 (JSON.skip_ws s)) as [r0|] eqn:H0; [|done].
  destruct (JSON.read_string r0) as [[k r1]|] eqn:H1; [|done].
  pose proof (skip_ws_length r1) as Hr1.
  destruct (JSON.after 58 (JSON.skip_ws r1)) as [r2|] eqn:H2; [|done].
  apply after_length in H0, H2. apply read_string_length in H1.
  rewrite <- Hv by lia.
  destruct (value_ r2) as [[v r3]|] eqn:H3; [|done].
  apply Hlen in H3. pose proof (skip_ws_length r3) as Hr3.
  destruct (JSON.after 125 _); [done|].
  destruct (JSON.after 44 _) as [r4|] eqn:H4; [|done].
  apply after_length in H4. rewrite Hm by lia. done.
Qed.

Lemma one_more_unit (fuel : nat) :
  (∀ s, 2 * length s + 2 ≤ fuel →
        JSON.read_value (S fuel) s = JSON.read_value fuel s)
  ∧ (∀ s, 2 * length s + 3 ≤ fuel →
          JSON.read_elements (S fuel) s = JSON.read_elements fuel s)
  ∧ (∀ s acc, 2 * length s + 1 ≤ fuel →
              JSON.read_members (S fuel) s acc = JSON.read_members fuel s acc).
Proof.
  induction fuel as [|fuel (IHv & IHe & IHm)].
  - repeat split; intros; lia.
  - destruct (read_lengths (S fuel)) as (Hlen & _ & _).
    repeat split.
    + intros s Hs.
      change (JSON.value_step (JSON.read_elements (S fuel))
                (JSON.read_members (S fuel)) s
              = JSON.value_step (JSON.read_elements fuel)
                  (JSON.read_members fuel) s).
      apply value_step_ext; intros; [apply IHe | apply IHm]; lia.
    + intros s Hs.
      change (JSON.elements_step (JSON.read_value (S fuel))
                (JSON.read_elements (S fuel)) s
              = JSON.elements_step (JSON.read_value fuel)
                  (JSON.read_elements fuel) s).
      apply elements_step_ext; [apply IHv; lia | apply Hlen |].
      intros; apply IHe; lia.
    + intros s acc Hs.
      change (JSON.members_step (JSON.read_value (S fuel))
                (JSON.read_members (S fuel)) s acc
              = JSON.members_step (JSON.read_value fuel)
                  (JSON.read_members fuel) s acc).
      apply members_step_ext; [| apply Hlen |].
      * intros; apply IHv; lia.
      * intros; apply IHm; lia.
Qed.

Lemma fuel_is_enough (s : jsstring) (fuel : nat) :
  2 * length s + 2 ≤ fuel →
  JSON.read_value fuel s = JSON.read_value (2 * length s + 2) s.
Proof.
  induction 1 as [|fuel Hle IH]; [done|].
  rewrite <- IH. by apply one_more_unit.
Qed.

(** * Further properties of the code *)

(** ** Trimming *)

Lemma trimStart_head (s : jsstring) :
  match trimStart s with
  | [] => True
  | c :: _ => isWhiteSpace c = false
  end.
Proof.
  induction s as [|c s IH]; simpl; [done|].
  destruct (isWhiteSpace c) eqn:Hc; [done | by rewrite Hc].
Qed.

Lemma trimStart_fixed (s : jsstring) :
  match s with
  | [] => True
  | c :: _ => isWhiteSpace c = false
  end →
  trimStart s = s.
Proof. destruct s as [|c s]; simpl; [done|]. by intros ->. Qed.

Lemma trimStart_idempotent (s : jsstring) :
  trimStart (trimStart s) = trimStart s.
Proof. apply trimStart_fixed, trimStart_head. Qed.

Lemma trimStart_suffix (s : jsstring) : ∃ ws, s = ws ++ trimStart s.
Proof.
  induction s as [|c s [ws IH]]; simpl; [by exists []|].
  destruct (isWhiteSpace c); [|by exists []].
  exists (c :: ws). simpl. by f_equal.
Qed.

Lemma trimEnd_prefix (s : jsstring) : ∃ ws, s = trimEnd s ++ ws.
Proof.
  unfold trimEnd. destruct (trimStart_suffix (rev s)) as [ws Hws].
  exists (rev ws). rewrite <- rev_app_distr, <- Hws. by rewrite rev_involutive.
Qed.

Lemma trimEnd_idempotent (s : jsstring) : trimEnd (trimEnd s) = trimEnd s.
Proof.
  unfold trimEnd. by rewrite rev_involutive, trimStart_idempotent.
Qed.

Lemma trim_idempotent (s : jsstring) : trim (trim s) = trim s.
Proof.
  unfold trim.
  assert (Hfix : trimStart (trimEnd (trimStart s)) = trimEnd (trimStart s)).
  { apply trimStart_fixed.
    destruct (trimEnd_prefix (trimStart s)) as [ws Hws].
    pose proof (trimStart_head s) as Hhead.
    destruct (trimEnd (trimStart s)) as [|c t]; [done|].
    by rewrite Hws in Hhead. }
  by rewrite Hfix, trimEnd_idempotent.
Qed.

(** ** Lines *)

Lemma split_not_empty (sep : N) (s : jsstring) : split sep s ≠ [].
Proof.
  destruct s as [|c s]; simpl; [done|].
  destruct (N.eqb c sep); [done|]. by destruct (split sep s).
Qed.

Lemma unlines_split (s : jsstring) : unlines (split 10 s) = s.
Proof.
  induction s as [|c s IH]; [done|]. simpl.
  destruct (N.eqb_spec c 10) as [->|Hc].
  - pose proof (split_not_empty 10 s).
    simpl. destruct (split 10 s) as [|l ls] eqn:Hs; [done|].
    simpl. by rewrite <- IH.
  - destruct (split 10 s) as [|l ls] eqn:Hs; [by destruct (split_not_empty 10 s)|].
    rewrite <- IH. simpl. by destruct ls.
Qed.

Lemma split_pieces (s : jsstring) : Forall (λ piece, (10%N ∉ piece)) (split 10 s).
Proof.
  induction s as [|c s IH]; simpl.
  - constructor; [|done]. by intros ?%elem_of_nil.
  - destruct (N.eqb_spec c 10) as [->|Hc].
    + constructor; [|done]. by intros ?%elem_of_nil.
    + destruct (split 10 s) as [|l ls]; [|inversion IH; subst].
      * constructor; [|done]. intros [<-|?%elem_of_nil]%elem_of_cons; done.
      * constructor; [|done]. intros [<-|?]%elem_of_cons; done.
Qed.

(** X5. The results name lines of the text and nothing else: their
    texts are, in order, among the pieces the text falls into at its line
    feeds, each without a line feed and not blank; and those pieces joined
    by line feeds are the text. *)
Theorem results_are_lines_of_the_text
  (model : jsstring -> outcome Error value) (serialize : value -> jsstring)
  (input : ExtractAndValidateFeedbackInput) :
  ∃ out,
    extractAndValidateFeedback model serialize input = Ret out
    ∧ map originalText (validatedResults out)
      `sublist_of` split 10 (textContent input)
    ∧ Forall (λ r, (10%N ∉ originalText r) ∧ trim (originalText r) ≠ [])
        (validatedResults out)
    ∧ unlines (split 10 (textContent input)) = textContent input.
Proof.
  destruct (entry_returns model serialize input) as (out & Hout & Hlines).
  exists out. split; [done|].
  assert (Hin : ∀ line, line ∈ map originalText (validatedResults out) →
                        (10%N ∉ line) ∧ trim line ≠ []).
  { rewrite Hlines. unfold nonBlankLines.
    intros line [Hb Hl]%list_elem_of_filter. split; [|done].
    pose proof (split_pieces (textContent input)) as Hp.
    rewrite Forall_forall in Hp. by apply Hp. }
  split; [|split].
  - rewrite Hlines. apply sublist_filter.
  - apply Forall_forall. intros r Hr. apply Hin.
    apply list_elem_of_In, in_map, list_elem_of_In, Hr.
  - apply unlines_split.
Qed.

(** ** One candidate, one line *)

(** X1. The result of a line depends on the candidate at its own
    position only: two candidate lists that agree at a position give the
    same result there, whatever they hold elsewhere. *)
Theorem line_result_depends_on_its_candidate_only
  (jsonResults jsonResults' : list value) (textLines : list jsstring)
  (i : nat) :
  index jsonResults i = index jsonResults' i →
  ∃ results results',
    alignLines jsonResults textLines = Ret results
    ∧ alignLines jsonResults' textLines = Ret results'
    ∧ results !! i = results' !! i.
Proof.
  intros Hi. do 2 eexists. rewrite !alignLines_verdicts.
  split; [done|]. split; [done|].
  rewrite !list_lookup_imap. destruct (textLines !! i); [|done].
  simpl. unfold lineVerdict. by rewrite Hi.
Qed.

Lemma line_result_depends_on_its_candidate_only_witness :
  ∃ results results',
    alignLines [VNull; Sample.record (str "Cajero") (str "Odio") [] true]
      [str "Great app"; str "Rude teller"] = Ret results
    ∧ alignLines
        [ Sample.record (str "App") (str "Amor") [] false;
          Sample.record (str "Cajero") (str "Odio") [] true; VBool true ]
        [str "Great app"; str "Rude teller"] = Ret results'
    ∧ results !! 1 = results' !! 1.
Proof.
  apply (line_result_depends_on_its_candidate_only
           [VNull; Sample.record (str "Cajero") (str "Odio") [] true]
           [ Sample.record (str "App") (str "Amor") [] false;
             Sample.record (str "Cajero") (str "Odio") [] true; VBool true ]
           [str "Great app"; str "Rude teller"] 1).
  reflexivity.
Defined.

(** ** Responses that are not an array *)

Lemma verdicts_of_one_candidate validate (candidate : value)
  (textLines : list jsstring) :
  imap (lineVerdict validate [candidate]) textLines
  = match textLines with
    | [] => []
    | line :: rest =>
        lineVerdict validate [candidate] 0 line :: map failureLine rest
    end.
Proof.
  destruct textLines as [|line rest]; [done|]. simpl. f_equal.
  apply list_eq. intros j. rewrite list_lookup_imap, list_lookup_fmap.
  by destruct (rest !! j).
Qed.

(** X2. A response that is one object, not an array of them, be it a
    value or a text that parses to one, stands for the first line only:
    the first non-blank line is judged on it and every other line is a
    [Failure] with a null record. *)
Theorem lone_object_answers_the_first_line
  (model : jsstring -> outcome Error value) (serialize : value -> jsstring)
  (input : ExtractAndValidateFeedbackInput) (output : value)
  (props : list (jsstring * value)) :
  model (renderPrompt input) = Ret output →
  output = VObject props
  ∨ (∃ raw, output = VString raw ∧ JSON.parse raw = Ret (VObject props)) →
  ∃ out,
    extractAndValidateFeedback model serialize input = Ret out
    ∧ validatedResults out
      = match nonBlankLines (textContent input) with
        | [] => []
        | line :: rest =>
            lineVerdict (Zod.parse FeedbackSchema) [VObject props] 0 line
            :: map (λ l, mkLineResult l VNull Failure) rest
        end.
Proof.
  intros Hm Hobj.
  assert (Hj : jsonResultsOf output = Ret [VObject props]).
  { destruct Hobj as [-> | (raw & -> & Hp)]; [done|].
    unfold jsonResultsOf. by rewrite Hp. }
  eexists. split; [by apply (entry_on_output _ serialize _ _ _ Hm Hj)|].
  simpl. by rewrite verdicts_of_one_candidate, textLinesOf_nonBlank.
Qed.

Lemma lone_object_answers_the_first_line_witness :
  ∃ out,
    extractAndValidateFeedback (Sample.replies (VString Sample.appRecord))
      Sample.anySerializer (mkInput (str "x") Sample.twoLines) = Ret out
    ∧ validatedResults out
      = match nonBlankLines Sample.twoLines with
        | [] => []
        | line :: rest =>
            lineVerdict (Zod.parse FeedbackSchema)
              [VObject [ (entidad, VString (str "App"));
                         (polaridad, VString (str "Amor"));
                         (categoria, VArray [VString (str "App")]);
                         (urgencia, VBool false) ]] 0 line
            :: map (λ l, mkLineResult l VNull Failure) rest
        end.
Proof.
  apply (lone_object_answers_the_first_line
           (Sample.replies (VString Sample.appRecord)) Sample.anySerializer
           (mkInput (str "x") Sample.twoLines) (VString Sample.appRecord)).
  - reflexivity.
  - right. exists Sample.appRecord. split; [reflexivity|].
    vm_compute. reflexivity.
Defined.

(** X3. A response that is neither an array nor an object (a string, a
    number, a boolean, null, or a text that parses to one of these) gives
    no candidate: every non-blank line is a [Failure] with a null
    record. *)
Theorem scalar_response_fails_every_line
  (model : jsstring -> outcome Error value) (serialize : value -> jsstring)
  (input : ExtractAndValidateFeedbackInput) (output : value) :
  model (renderPrompt input) = Ret output →
  match output with
  | VString raw => ∃ v, JSON.parse raw = Ret v ∧ scalar v = true
  | _ => scalar output = true
  end →
  ∃ out,
    extractAndValidateFeedback model serialize input = Ret out
    ∧ validatedResults out
      = map (λ line, mkLineResult line VNull Failure)
          (nonBlankLines (textContent input)).
Proof.
  intros Hm Hs.
  assert (Hj : jsonResultsOf output = Ret []).
  { assert (Hscalar : ∀ v, scalar v = true →
              (if truthy v
                  && match typeof v with TObject => true | _ => false end
               then [v] else []) = []).
    { intros [| |b|n|s| |] Hv; simpl; try done.
      - by rewrite andb_false_r.
      - by rewrite andb_false_r.
      - by destruct s. }
    unfold jsonResultsOf.
    destruct output as [| |b|n|raw| |]; simpl; try done.
    - by rewrite andb_false_r.
    - by rewrite andb_false_r.
    - destruct Hs as (v & -> & Hv). simpl.
      destruct v; try done; by rewrite (Hscalar _ Hv). }
  eexists. split; [by apply (entry_on_output _ serialize _ _ _ Hm Hj)|].
  simpl. by rewrite verdicts_without_candidates, textLinesOf_nonBlank.
Qed.

Lemma scalar_response_fails_every_line_witness :
  ∃ out,
    extractAndValidateFeedback
      (Sample.replies (VString (quoted (str "Amor")))) Sample.anySerializer
      (mkInput (str "x") Sample.twoLines) = Ret out
    ∧ validatedResults out
      = map (λ line, mkLineResult line VNull Failure)
          (nonBlankLines Sample.twoLines).
Proof.
  apply (scalar_response_fails_every_line
           (Sample.replies (VString (quoted (str "Amor"))))
           Sample.anySerializer (mkInput (str "x") Sample.twoLines)
           (VString (quoted (str "Amor")))).
  - reflexivity.
  - exists (VString (str "Amor")). split; reflexivity.
Defined.

(** ** Responses that do not start like JSON *)

Lemma startsJson_false (c : N) :
  startsJson c = false →
  N.eqb c 123 = false ∧ N.eqb c 91 = false ∧ N.eqb c 34 = false
  ∧ N.eqb c 116 = false ∧ N.eqb c 102 = false ∧ N.eqb c 110 = false
  ∧ N.eqb c 45 = false ∧ JSON.digit_of c = None.
Proof.
  unfold startsJson, JSON.digit_of. simpl.
  intros H. apply orb_false_iff in H as [He ->].
  repeat (apply orb_false_iff in He as [? He]).
  repeat split; done.
Qed.

Lemma read_number_needs_a_start (c : N) (r : jsstring) :
  N.eqb c 45 = false → JSON.digit_of c = None →
  JSON.read_number (c :: r) = None.
Proof.
  intros Hm Hd. unfold JSON.read_number, JSON.after. rewrite Hm.
  unfold JSON.read_int, JSON.after.
  assert (N.eqb c 48 = false) as ->.
  { destruct (N.eqb_spec c 48) as [->|]; [done|done]. }
  simpl. by rewrite Hd.
Qed.

Lemma read_value_needs_a_start (fuel : nat) (raw : jsstring) :
  match JSON.skip_ws raw with
  | [] => True
  | c :: _ => startsJson c = false
  end →
  JSON.read_value fuel raw = None.
Proof.
  intros H. destruct fuel as [|fuel]; [done|].
  change (JSON.value_step (JSON.read_elements fuel) (JSON.read_members fuel)
            raw = None).
  unfold JSON.value_step. destruct (JSON.skip_ws raw) as [|c r]; [done|].
  apply startsJson_false in H as (-> & -> & -> & -> & -> & -> & Hm & Hd).
  by rewrite (read_number_needs_a_start c r Hm Hd).
Qed.

(** X4. A text that is empty, or whose first character after white
    space cannot start a JSON value (a markdown fence, a word of prose),
    is kept as the raw response and fails every non-blank line. *)
Theorem text_that_cannot_start_json_fails_every_line
  (model : jsstring -> outcome Error value) (serialize : value -> jsstring)
  (input : ExtractAndValidateFeedbackInput) (raw : jsstring) :
  model (renderPrompt input) = Ret (VString raw) →
  match JSON.skip_ws raw with
  | [] => True
  | c :: _ => startsJson c = false
  end →
  extractAndValidateFeedback model serialize input
  = Ret (mkOutput raw
           (map (λ line, mkLineResult line VNull Failure)
              (nonBlankLines (textContent input)))).
Proof.
  intros Hm Hstart.
  assert (Hj : jsonResultsOf (VString raw) = Ret []).
  { unfold jsonResultsOf, JSON.parse.
    by rewrite (read_value_needs_a_start _ raw Hstart). }
  rewrite (entry_on_output _ serialize _ _ _ Hm Hj). simpl.
  by rewrite verdicts_without_candidates, textLinesOf_nonBlank.
Qed.

Lemma text_that_cannot_start_json_fails_every_line_witness :
  extractAndValidateFeedback
    (Sample.replies
       (VString (str "```json" ++ [10%N]
                 ++ Sample.arrayText [Sample.appRecord; Sample.tellerRecord]
                 ++ [10%N] ++ str "```")))
    Sample.anySerializer (mkInput (str "x") Sample.twoLines)
  = Ret (mkOutput
           (str "```json" ++ [10%N]
            ++ Sample.arrayText [Sample.appRecord; Sample.tellerRecord]
            ++ [10%N] ++ str "```")
           (map (λ line, mkLineResult line VNull Failure)
              (nonBlankLines Sample.twoLines))).
Proof.
  apply (text_that_cannot_start_json_fails_every_line
           (Sample.replies
              (VString (str "```json" ++ [10%N]
                        ++ Sample.arrayText
                             [Sample.appRecord; Sample.tellerRecord]
                        ++ [10%N] ++ str "```")))
           Sample.anySerializer (mkInput (str "x") Sample.twoLines)).
  - reflexivity.
  - reflexivity.
Defined.

(** ** More on the schema *)

(** X6. Validation is idempotent: a record the schema returned is
    accepted again and returned unchanged. *)
Theorem schema_parse_is_idempotent (candidate record : value) :
  Zod.parse FeedbackSchema candidate = Ret record →
  Zod.parse FeedbackSchema record = Ret record.
Proof. intros H. by apply FeedbackSchema_parse_result in H as (_ & _ & _ & H). Qed.

Lemma schema_parse_is_idempotent_witness :
  Zod.parse FeedbackSchema
    (Sample.record (str "App") (str "Amor") [str "App"] false)
  = Ret (Sample.record (str "App") (str "Amor") [str "App"] false).
Proof.
  apply (schema_parse_is_idempotent
           (VObject [ (str "nota", VNull);
                      (urgencia, VBool false);
                      (categoria, VArray [VString (str "App")]);
                      (polaridad, VString (str "Amor"));
                      (entidad, VString (str "App")) ])).
  reflexivity.
Defined.

Lemma get_swap (x y : jsstring * value) (props : list (jsstring * value))
  (k : jsstring) :
  fst x ≠ fst y → get (x :: y :: props) k = get (y :: x :: props) k.
Proof.
  destruct x as [kx vx], y as [ky vy]. simpl. intros Hne.
  destruct (eqb_str kx k) eqn:Hx, (eqb_str ky k) eqn:Hy; try done.
  apply eqb_str_eq in Hx, Hy. congruence.
Qed.

Lemma get_Permutation (props props' : list (jsstring * value)) (k : jsstring) :
  NoDup (props.*1) → props ≡ₚ props' → get props k = get props' k.
Proof.
  intros Hnd Hp. induction Hp as [|x l l' Hp IH|x y l|l l' l'' Hp1 IH1 Hp2 IH2].
  - done.
  - simpl. destruct x as [kx vx]. rewrite fmap_cons in Hnd.
    apply NoDup_cons in Hnd as [_ Hnd]. by rewrite IH.
  - apply get_swap. rewrite !fmap_cons in Hnd.
    apply NoDup_cons in Hnd as [Hy _]. intros Heq. apply Hy.
    rewrite <- Heq. by left.
  - rewrite IH1 by done. apply IH2. by rewrite <- Hp1.
Qed.

(** X7. The order in which a candidate lists its properties does not
    matter: two objects with the same properties (no key twice) get the
    same answer from the schema. *)
Theorem property_order_is_irrelevant (props props' : list (jsstring * value)) :
  NoDup (props.*1) →
  props ≡ₚ props' →
  Zod.parse FeedbackSchema (VObject props)
  = Zod.parse FeedbackSchema (VObject props').
Proof.
  intros Hnd Hp. rewrite !FeedbackSchema_parse_object.
  by rewrite !(get_Permutation props props' _ Hnd Hp).
Qed.

Lemma property_order_is_irrelevant_witness :
  Zod.parse FeedbackSchema
    (VObject [ (entidad, VString (str "App"));
               (polaridad, VString (str "Amor"));
               (categoria, VArray []);
               (urgencia, VBool false) ])
  = Zod.parse FeedbackSchema
      (VObject [ (polaridad, VString (str "Amor"));
                 (entidad, VString (str "App"));
                 (categoria, VArray []);
                 (urgencia, VBool false) ]).
Proof.
  apply property_order_is_irrelevant.
  - apply (bool_decide_unpack _). vm_compute. exact I.
  - apply perm_swap.
Defined.

(** X8. An accepted record is not normalised: it has the four fields,
    in the order of the schema, each with the value the candidate had;
    categories keep their order and their repetitions. *)
Theorem accepted_record_keeps_the_field_values
  (props : list (jsstring * value)) (record : value) :
  Zod.parse FeedbackSchema (VObject props) = Ret record →
  ∃ fields,
    record = VObject fields
    ∧ map fst fields = fieldNames
    ∧ ∀ k, In k fieldNames → get fields k = get props k.
Proof.
  intros H. apply FeedbackSchema_parse_Ret in H
    as (props' & [= <-] & _ & _ & _ & _ & ->).
  eexists. split; [done|]. split; [done|].
  intros k [<- | [<- | [<- | [<- | []]]]]; reflexivity.
Qed.

Lemma accepted_record_keeps_the_field_values_witness :
  ∃ fields,
    Sample.record (str "App") (str "Odio") [str "App"; Atencion; str "App"] true
    = VObject fields
    ∧ map fst fields = fieldNames
    ∧ ∀ k, In k fieldNames →
           get fields k
           = get [ (urgencia, VBool true);
                   (categoria,
                    VArray [VString (str "App"); VString Atencion;
                            VString (str "App")]);
                   (entidad, VString (str "App"));
                   (polaridad, VString (str "Odio")) ] k.
Proof.
  apply (accepted_record_keeps_the_field_values
           [ (urgencia, VBool true);
             (categoria,
              VArray [VString (str "App"); VString Atencion;
                      VString (str "App")]);
             (entidad, VString (str "App"));
             (polaridad, VString (str "Odio")) ]).
  reflexivity.
Defined.

(** ** The score *)

Lemma accepts_truthy (candidate : value) :
  accepts candidate = true → truthy candidate = true.
Proof.
  unfold accepts.
  destruct (Zod.parse FeedbackSchema candidate) as [r|] eqn:Hp; [|done].
  intros _. by apply (FeedbackSchema_parse_truthy _ r).
Qed.

Lemma isSuccess_verdict (jsonResults : list value) (i : nat) (line : jsstring) :
  isSuccess (lineVerdict (Zod.parse FeedbackSchema) jsonResults i line)
  = accepts (index jsonResults i).
Proof.
  pose proof (accepts_truthy (index jsonResults i)) as Ht.
  unfold lineVerdict, accepts in *.
  destruct (Zod.parse FeedbackSchema (index jsonResults i)).
  - by rewrite Ht.
  - by destruct (truthy _).
Qed.

Lemma filter_all_length {A} (f : A -> bool) (l : list A) :
  length (List.filter f l) = length l ↔ ∀ x, In x l → f x = true.
Proof.
  induction l as [|a l IH]; simpl; [by split|].
  pose proof (List.filter_length_le f l) as Hle.
  destruct (f a) eqn:Ha; simpl; split.
  - intros [= H]. intros x [<-|Hx]; [done|]. by apply IH.
  - intros H. f_equal. apply IH. auto.
  - lia.
  - intros H. rewrite H in Ha by auto. done.
Qed.

Lemma successes_count (jsonResults : list value) (textLines : list jsstring) :
  length (List.filter isSuccess
            (imap (lineVerdict (Zod.parse FeedbackSchema) jsonResults)
               textLines))
  = length (List.filter accepts (take (length textLines) jsonResults)).
Proof.
  revert jsonResults. induction textLines as [|line rest IH]; intros js.
  - by rewrite take_0.
  - assert (Htail :
      imap (lineVerdict (Zod.parse FeedbackSchema) js ∘ S) rest
      = imap (lineVerdict (Zod.parse FeedbackSchema) (tail js)) rest).
    { apply imap_ext. intros j l _. simpl. unfold lineVerdict, index.
      by destruct js. }
    cbn [imap length]. rewrite Htail. cbn [List.filter].
    rewrite isSuccess_verdict. destruct js as [|c js]; simpl.
    + rewrite IH. by rewrite take_nil.
    + unfold index. simpl. destruct (accepts c); simpl; by rewrite IH.
Qed.

Lemma all_successes (jsonResults : list value) (textLines : list jsstring) :
  (∀ r, In r (imap (lineVerdict (Zod.parse FeedbackSchema) jsonResults)
                textLines) → isSuccess r = true)
  ↔ ∀ i, i < length textLines → accepts (index jsonResults i) = true.
Proof.
  split.
  - intros H i Hi. apply lookup_lt_is_Some_2 in Hi as [line Hl].
    rewrite <- (isSuccess_verdict jsonResults i line). apply H.
    apply list_elem_of_In, list_elem_of_lookup. exists i.
    by rewrite list_lookup_imap, Hl.
  - intros H r [i Hr]%list_elem_of_In%list_elem_of_lookup.
    rewrite list_lookup_imap in Hr.
    destruct (textLines !! i) as [line|] eqn:Hl; [|done].
    injection Hr as <-. rewrite isSuccess_verdict. apply H.
    by apply lookup_lt_Some in Hl.
Qed.

Lemma runEvaluation_on_output
  (model : jsstring -> outcome Error value) (serialize : value -> jsstring)
  (systemInstruction content : jsstring) (record : EvaluationRecord) :
  runEvaluation model serialize systemInstruction (Some content)
  = Some record →
  trim systemInstruction ≠ [] ∧ content ≠ []
  ∧ extractAndValidateFeedback model serialize
      (mkInput (trim systemInstruction) content) = Ret (results record)
  ∧ record_systemInstruction record = trim systemInstruction
  ∧ score record
    = length (List.filter isSuccess (validatedResults (results record)))
  ∧ total record = length (validatedResults (results record)).
Proof.
  unfold runEvaluation.
  destruct (trim systemInstruction) as [|c s]; [done|].
  destruct content as [|d content]; [done|].
  destruct (extractAndValidateFeedback _ _ _) as [out|]; [|done].
  by intros [= <-].
Qed.

(** X9. The score of a run is the number of candidates the schema
    accepts among the first N the model gave, N being the number of
    non-blank lines: candidates past the last line and lines without a
    candidate do not count. *)
Theorem score_counts_accepted_candidates
  (model : jsstring -> outcome Error value) (serialize : value -> jsstring)
  (systemInstruction content : jsstring) (output : value)
  (jsonResults : list value) (record : EvaluationRecord) :
  model (renderPrompt (mkInput (trim systemInstruction) content)) = Ret output →
  jsonResultsOf output = Ret jsonResults →
  runEvaluation model serialize systemInstruction (Some content)
  = Some record →
  total record = length (nonBlankLines content)
  ∧ score record
    = length (List.filter accepts (take (total record) jsonResults))
  ∧ score record ≤ total record
  ∧ score record ≤ length jsonResults.
Proof.
  intros Hm Hj Hrun.
  apply runEvaluation_on_output in Hrun as (_ & _ & Hout & _ & Hscore & Htotal).
  rewrite (entry_on_output _ serialize _ _ _ Hm Hj) in Hout.
  rewrite Hscore, Htotal. clear Hscore Htotal. injection Hout as <-.
  simpl. rewrite successes_count, length_imap, textLinesOf_nonBlank.
  split; [done|]. split; [done|].
  pose proof (List.filter_length_le accepts
                (take (length (nonBlankLines content)) jsonResults)) as Hle.
  rewrite length_take in Hle. lia.
Qed.

Lemma score_counts_accepted_candidates_witness :
  total (mkRecord (str "Extrae.") 1 2
           (mkOutput (Sample.arrayText [Sample.appRecord; str "7"; Sample.tellerRecord])
              [ mkLineResult (str "Great app")
                  (Sample.record (str "App") (str "Amor") [str "App"] false)
                  Success;
                failureLine (str "Rude teller") ]))
  = length (nonBlankLines Sample.withBlankLine)
  ∧ score (mkRecord (str "Extrae.") 1 2
             (mkOutput (Sample.arrayText [Sample.appRecord; str "7"; Sample.tellerRecord])
                [ mkLineResult (str "Great app")
                    (Sample.record (str "App") (str "Amor") [str "App"] false)
                    Success;
                  failureLine (str "Rude teller") ]))
    = length
        (List.filter accepts
           (take 2
              [ Sample.record (str "App") (str "Amor") [str "App"] false;
                VNumber (mkNumber false 7 0);
                Sample.record (str "Cajero") (str "Odio") [Atencion] true ]))
  ∧ 1 ≤ 2
  ∧ 1 ≤ 3.
Proof.
  apply (score_counts_accepted_candidates
           (Sample.replies
              (VString (Sample.arrayText
                          [Sample.appRecord; str "7"; Sample.tellerRecord])))
           Sample.anySerializer (str " Extrae. ") Sample.withBlankLine
           (VString (Sample.arrayText
                       [Sample.appRecord; str "7"; Sample.tellerRecord]))
           [ Sample.record (str "App") (str "Amor") [str "App"] false;
             VNumber (mkNumber false 7 0);
             Sample.record (str "Cajero") (str "Odio") [Atencion] true ]).
  - reflexivity.
  - vm_compute. reflexivity.
  - vm_compute. reflexivity.
Defined.

(** X10. A run has the full score exactly when every non-blank line has,
    at its position, a candidate the schema accepts. *)
Theorem full_score_iff_every_line_has_an_accepted_candidate
  (model : jsstring -> outcome Error value) (serialize : value -> jsstring)
  (systemInstruction content : jsstring) (output : value)
  (jsonResults : list value) (record : EvaluationRecord) :
  model (renderPrompt (mkInput (trim systemInstruction) content)) = Ret output →
  jsonResultsOf output = Ret jsonResults →
  runEvaluation model serialize systemInstruction (Some content)
  = Some record →
  score record = total record
  ↔ ∀ i, i < length (nonBlankLines content) →
         accepts (index jsonResults i) = true.
Proof.
  intros Hm Hj Hrun.
  apply runEvaluation_on_output in Hrun as (_ & _ & Hout & _ & Hscore & Htotal).
  rewrite (entry_on_output _ serialize _ _ _ Hm Hj) in Hout.
  rewrite Hscore, Htotal. clear Hscore Htotal. injection Hout as <-.
  simpl. rewrite filter_all_length, all_successes.
  by rewrite textLinesOf_nonBlank.
Qed.

Lemma full_score_iff_every_line_has_an_accepted_candidate_witness :
  2 = 2
  ↔ ∀ i, i < length (nonBlankLines Sample.twoLines) →
         accepts
           (index [ Sample.record (str "App") (str "Amor") [str "App"] false;
                    Sample.record (str "Cajero") (str "Odio") [Atencion] true ]
              i) = true.
Proof.
  apply (full_score_iff_every_line_has_an_accepted_candidate
           (Sample.replies
              (VArray
                 [ Sample.record (str "App") (str "Amor") [str "App"] false;
                   Sample.record (str "Cajero") (str "Odio") [Atencion] true ]))
           Sample.anySerializer (str "Extrae.") Sample.twoLines
           (VArray
              [ Sample.record (str "App") (str "Amor") [str "App"] false;
                Sample.record (str "Cajero") (str "Odio") [Atencion] true ])
           [ Sample.record (str "App") (str "Amor") [str "App"] false;
             Sample.record (str "Cajero") (str "Odio") [Atencion] true ]
           (mkRecord (str "Extrae.") 2 2
              (mkOutput (str "null")
                 [ mkLineResult (str "Great app")
                     (Sample.record (str "App") (str "Amor") [str "App"] false)
                     Success;
                   mkLineResult (str "Rude teller")
                     (Sample.record (str "Cajero") (str "Odio") [Atencion] true)
                     Success ]))).
  - reflexivity.
  - reflexivity.
  - vm_compute. reflexivity.
Defined.

(** X11. A run whose model call fails is recorded all the same, with
    score zero out of the number of non-blank lines and the diagnostic
    as its raw response. *)
Theorem failed_call_is_recorded_with_score_zero
  (model : jsstring -> outcome Error value) (serialize : value -> jsstring)
  (systemInstruction content : jsstring) (error : Error) :
  trim systemInstruction ≠ [] →
  content ≠ [] →
  model (renderPrompt (mkInput (trim systemInstruction) content))
  = Throw error →
  ∃ record,
    runEvaluation model serialize systemInstruction (Some content)
    = Some record
    ∧ score record = 0
    ∧ total record = length (nonBlankLines content)
    ∧ rawResponse (results record) = diagnostic error.
Proof.
  intros Hs Hc Hm. unfold runEvaluation.
  destruct (trim systemInstruction) as [|c s] eqn:Ht; [done|].
  destruct content as [|d content]; [done|].
  rewrite (entry_on_fault _ serialize _ _ Hm).
  eexists. split; [done|]. simpl.
  rewrite length_map, textLinesOf_nonBlank. split; [|done].
  induction (nonBlankLines _) as [|l ls IH]; [done|]. exact IH.
Qed.

Lemma failed_call_is_recorded_with_score_zero_witness :
  ∃ record,
    runEvaluation (Sample.fails (str "timeout")) Sample.anySerializer
      (str "Extrae.") (Some Sample.twoLines)
    = Some record
    ∧ score record = 0
    ∧ total record = length (nonBlankLines Sample.twoLines)
    ∧ rawResponse (results record) = diagnostic (mkError (str "timeout")).
Proof.
  apply (failed_call_is_recorded_with_score_zero
           (Sample.fails (str "timeout")) Sample.anySerializer
           (str "Extrae.") Sample.twoLines (mkError (str "timeout"))).
  - vm_compute. discriminate.
  - vm_compute. discriminate.
  - reflexivity.
Defined.

(** X12. [runEvaluation] does nothing exactly when the instruction is
    blank or no text has been loaded (no file, or an empty one); once
    past that guard a run always yields a record. *)
Theorem runEvaluation_guard
  (model : jsstring -> outcome Error value) (serialize : value -> jsstring)
  (systemInstruction : jsstring) (fileContent : option jsstring) :
  runEvaluation model serialize systemInstruction fileContent = None
  ↔ trim systemInstruction = [] ∨ fileContent = None ∨ fileContent = Some [].
Proof.
  unfold runEvaluation. destruct fileContent as [content|]; [|by split; auto].
  destruct (trim systemInstruction) as [|c s] eqn:Ht; [by split; auto|].
  destruct content as [|d content]; [by split; auto|].
  destruct (entry_returns model serialize (mkInput (c :: s) (d :: content)))
    as (out & -> & _).
  split; [done|]. by intros [|[|]].
Qed.

(** ** The dashboard *)

Section DashboardFacts.

Variable model : jsstring -> outcome Error value.
Variable serialize : value -> jsstring.
Variable stringifyHistory : list EvaluationRecord -> jsstring.
Variable takes : Storage -> jsstring -> jsstring -> bool.
Variable studentName : jsstring.

Abbreviation run := (Dashboard.runEvaluation model serialize stringifyHistory
                   takes studentName).
Abbreviation handle := (Dashboard.handle model serialize stringifyHistory
                      takes studentName).
Abbreviation handleAll := (Dashboard.handleAll model serialize stringifyHistory
                         takes studentName).
Abbreviation key := (Dashboard.historyKey studentName).

(** A click either changes nothing or puts one record in front of the
    history and tries to store the new history. *)
Lemma run_cases (st : Dashboard.State) (storage : Storage) :
  run st storage = (st, storage)
  ∨ (∃ record,
       runEvaluation model serialize (Dashboard.instruction st)
         (Dashboard.fileContent st) = Some record
       ∧ run st storage
         = (Dashboard.mkState (Dashboard.instruction st)
              (Dashboard.fileContent st) (Dashboard.fileName st) false
              (Some (results record)) (record :: Dashboard.history st),
            if takes storage key
                 (stringifyHistory (record :: Dashboard.history st))
            then <[key := stringifyHistory (record :: Dashboard.history st)]>
                   storage
            else storage)).
Proof.
  unfold Dashboard.runEvaluation, runEvaluation, Dashboard.setItem.
  destruct (Dashboard.fileContent st) as [content|]; [|by left].
  destruct (trim (Dashboard.instruction st)) as [|c s] eqn:Ht; [by left|].
  destruct content as [|d content]; [by left|].
  destruct (entry_returns model serialize (mkInput (c :: s) (d :: content)))
    as (out & -> & _).
  right. eexists. split; [done|]. by destruct (takes _ _ _).
Qed.

Lemma handle_cases (ev : Dashboard.Event) (w : Dashboard.State * Storage) :
  (Dashboard.history (handle ev w).1 = Dashboard.history w.1
   ∧ (handle ev w).2 = w.2)
  ∨ (isClick ev = true
     ∧ ∃ record,
         Dashboard.history (handle ev w).1 = record :: Dashboard.history w.1
         ∧ (handle ev w).2
           = if takes w.2 key
                  (stringifyHistory (record :: Dashboard.history w.1))
             then <[key := stringifyHistory (record :: Dashboard.history w.1)]>
                    w.2
             else w.2).
Proof.
  destruct w as [st storage].
  destruct ev as [text|[f|]| | |row]; simpl; try (by left).
  - destruct (run_cases st storage) as [-> | (record & _ & ->)]; [by left|].
    right. split; [done|]. by exists record.
  - left. unfold Dashboard.reopen.
    by destruct (Dashboard.history st !! row).
Qed.

Lemma handleAll_snoc (events : list Dashboard.Event) (ev : Dashboard.Event)
  (w : Dashboard.State * Storage) :
  handleAll (events ++ [ev]) w = handle ev (handleAll events w).
Proof. unfold Dashboard.handleAll. by rewrite foldl_snoc. Qed.

End DashboardFacts.

(** X13. A click with a non-blank instruction and a non-empty text
    loaded ends with the run on display and recorded: the new record
    heads the history, the older ones follow untouched, its score and
    total are the ones the summary card shows and the busy flag is down.
    If the storage takes the write, the whole new history is what is
    stored under the student's key; if it does not, the storage is as it
    was and the record is in memory only. *)
Theorem click_records_the_run
  (model : jsstring -> outcome Error value) (serialize : value -> jsstring)
  (stringifyHistory : list EvaluationRecord -> jsstring)
  (takes : Storage -> jsstring -> jsstring -> bool)
  (studentName : jsstring) (st : Dashboard.State) (storage : Storage)
  (content : jsstring) :
  trim (Dashboard.instruction st) ≠ [] →
  Dashboard.fileContent st = Some content →
  content ≠ [] →
  ∃ record st' storage',
    Dashboard.runEvaluation model serialize stringifyHistory takes studentName
      st storage = (st', storage')
    ∧ Dashboard.history st' = record :: Dashboard.history st
    ∧ Dashboard.currentResult st' = Some (results record)
    ∧ Dashboard.shownScore st' = score record
    ∧ Dashboard.totalItems st' = total record
    ∧ total record = length (nonBlankLines content)
    ∧ record_systemInstruction record = trim (Dashboard.instruction st)
    ∧ Dashboard.isProcessing st' = false
    ∧ storage'
      = if takes storage (Dashboard.historyKey studentName)
             (stringifyHistory (Dashboard.history st'))
        then <[Dashboard.historyKey studentName
               := stringifyHistory (Dashboard.history st')]> storage
        else storage.
Proof.
  intros Hs Hf Hc.
  destruct (run_cases model serialize stringifyHistory takes studentName
              st storage)
    as [Hsame | (record & Hrec & Hrun)].
  - exfalso. unfold Dashboard.runEvaluation in Hsame. rewrite Hf in Hsame.
    destruct (trim (Dashboard.instruction st)) as [|c s]; [done|].
    destruct content as [|d content]; [done|].
    destruct (entry_returns model serialize (mkInput (c :: s) (d :: content)))
      as (out & Hout & _).
    rewrite Hout in Hsame. injection Hsame as Hst _.
    apply (f_equal (λ s, length (Dashboard.history s))) in Hst.
    simpl in Hst. lia.
  - rewrite Hf in Hrec.
    apply runEvaluation_on_output in Hrec
      as (_ & _ & Hout & Hinstr & Hscore & Htotal).
    do 3 eexists. split; [exact Hrun|]. simpl.
    split; [done|]. split; [done|]. split; [done|]. split; [done|].
    split; [|done].
    rewrite Htotal.
    destruct (entry_returns model serialize
                (mkInput (trim (Dashboard.instruction st)) content))
      as (out & Hout' & Hlines).
    rewrite Hout in Hout'. injection Hout' as <-. simpl in Hlines.
    by rewrite <- Hlines, length_map.
Qed.

Lemma click_records_the_run_witness :
  ∃ record st' storage',
    Dashboard.runEvaluation
      (Sample.replies (VString (Sample.arrayText [Sample.appRecord])))
      Sample.anySerializer tally roomy (str "Ana")
      (Dashboard.mkState (str " Extrae. ") (Some Sample.twoLines)
         (Some (str "casos.txt")) false None [])
      ∅ = (st', storage')
    ∧ Dashboard.history st' = record :: []
    ∧ Dashboard.currentResult st' = Some (results record)
    ∧ Dashboard.shownScore st' = score record
    ∧ Dashboard.totalItems st' = total record
    ∧ total record = length (nonBlankLines Sample.twoLines)
    ∧ record_systemInstruction record = trim (str " Extrae. ")
    ∧ Dashboard.isProcessing st' = false
    ∧ storage'
      = if roomy ∅ (Dashboard.historyKey (str "Ana"))
             (tally (Dashboard.history st'))
        then <[Dashboard.historyKey (str "Ana")
               := tally (Dashboard.history st')]> ∅
        else ∅.
Proof.
  apply (click_records_the_run
           (Sample.replies (VString (Sample.arrayText [Sample.appRecord])))
           Sample.anySerializer tally roomy (str "Ana")
           (Dashboard.mkState (str " Extrae. ") (Some Sample.twoLines)
              (Some (str "casos.txt")) false None [])
           ∅ Sample.twoLines).
  - vm_compute. discriminate.
  - reflexivity.
  - vm_compute. discriminate.
Defined.

(** A write that is refused: the record is in memory, the storage has
    nothing under the key. *)
Example refused_write_leaves_the_storage_behind :
  Dashboard.history
    (Dashboard.runEvaluation
       (Sample.replies (VString (Sample.arrayText [Sample.appRecord])))
       Sample.anySerializer tally full (str "Ana")
       (Dashboard.mkState (str "Extrae.") (Some Sample.twoLines)
          (Some (str "casos.txt")) false None [])
       ∅).1
  = [ mkRecord (str "Extrae.") 1 2
        (mkOutput (Sample.arrayText [Sample.appRecord])
           [ mkLineResult (str "Great app")
               (Sample.record (str "App") (str "Amor") [str "App"] false)
               Success;
             failureLine (str "Rude teller") ]) ]
  ∧ (Dashboard.runEvaluation
       (Sample.replies (VString (Sample.arrayText [Sample.appRecord])))
       Sample.anySerializer tally full (str "Ana")
       (Dashboard.mkState (str "Extrae.") (Some Sample.twoLines)
          (Some (str "casos.txt")) false None [])
       ∅).2 !! Dashboard.historyKey (str "Ana") = None.
Proof. split; vm_compute; reflexivity. Qed.

(** X14. Whatever the user does (typing, picking files, clicking,
    restarting, reopening a past attempt), the history only grows, at its
    front, and by at most one record for each click. *)
Theorem history_only_grows
  (model : jsstring -> outcome Error value) (serialize : value -> jsstring)
  (stringifyHistory : list EvaluationRecord -> jsstring)
  (takes : Storage -> jsstring -> jsstring -> bool)
  (studentName : jsstring) (events : list Dashboard.Event)
  (st : Dashboard.State) (storage : Storage) :
  ∃ newer,
    Dashboard.history
      (Dashboard.handleAll model serialize stringifyHistory takes studentName
         events (st, storage)).1
    = newer ++ Dashboard.history st
    ∧ length newer ≤ length (List.filter isClick events).
Proof.
  induction events as [|ev events IH] using rev_ind.
  - by exists [].
  - destruct IH as (newer & Hh & Hlen).
    rewrite handleAll_snoc, List.filter_app, length_app.
    destruct (handle_cases model serialize stringifyHistory takes studentName
                ev
                (Dashboard.handleAll model serialize stringifyHistory takes
                   studentName events (st, storage)))
      as [[-> _] | (Hclick & record & -> & _)].
    + exists newer. split; [done | lia].
    + exists (record :: newer). rewrite Hh. split; [done|].
      simpl. rewrite Hclick. simpl. lia.
Qed.

(** X15. The dashboard writes to one key of the storage, the history key
    of its student: every other key, the key of the logged-in name and
    the history keys of other students among them, keeps its value
    through any sequence of events. *)
Theorem dashboard_writes_its_own_key_only
  (model : jsstring -> outcome Error value) (serialize : value -> jsstring)
  (stringifyHistory : list EvaluationRecord -> jsstring)
  (takes : Storage -> jsstring -> jsstring -> bool)
  (studentName : jsstring) (events : list Dashboard.Event)
  (st : Dashboard.State) (storage : Storage) :
  (∀ k, k ≠ Dashboard.historyKey studentName →
        (Dashboard.handleAll model serialize stringifyHistory takes
           studentName events (st, storage)).2 !! k = storage !! k)
  ∧ (Dashboard.handleAll model serialize stringifyHistory takes studentName
       events (st, storage)).2 !! Home.nameKey = storage !! Home.nameKey
  ∧ (∀ other, other ≠ studentName →
       (Dashboard.handleAll model serialize stringifyHistory takes
          studentName events (st, storage)).2 !! Dashboard.historyKey other
       = storage !! Dashboard.historyKey other).
Proof.
  assert (Hframe : ∀ k, k ≠ Dashboard.historyKey studentName →
    (Dashboard.handleAll model serialize stringifyHistory takes studentName
       events (st, storage)).2 !! k = storage !! k).
  { intros k Hk. induction events as [|ev events IH] using rev_ind; [done|].
    rewrite handleAll_snoc.
    destruct (handle_cases model serialize stringifyHistory takes studentName
                ev
                (Dashboard.handleAll model serialize stringifyHistory takes
                   studentName events (st, storage)))
      as [[_ ->] | (_ & record & _ & ->)]; [done|].
    destruct (takes _ _ _); [|done]. by rewrite lookup_insert_ne. }
  split; [done|]. split.
  - apply Hframe. unfold Home.nameKey, Dashboard.historyKey. discriminate.
  - intros other Hne. apply Hframe. unfold Dashboard.historyKey.
    intros H. by apply app_inv_head in H.
Qed.



(** With a storage that takes every write, two runs leave two records in
    memory and the text of both in the storage; with one that takes none,
    two records in memory and the old text in the storage. *)
Example two_runs_and_the_storage :
  (let w := Dashboard.handleAll
              (Sample.replies (VString (Sample.arrayText [Sample.appRecord])))
              Sample.anySerializer tally roomy (str "Ana")
              [ Dashboard.Typed (str "Extrae.");
                Dashboard.Picked
                  (Some (mkFile (str "casos.txt") Sample.twoLines));
                Dashboard.Clicked; Dashboard.Reopened 0; Dashboard.Clicked ]
              (Dashboard.initial,
               {[ Dashboard.historyKey (str "Ana") := tally [] ]}) in
   (length (Dashboard.history w.1), w.2 !! Dashboard.historyKey (str "Ana")))
  = (2, Some (str "##"))
  ∧ (let w := Dashboard.handleAll
                (Sample.replies
                   (VString (Sample.arrayText [Sample.appRecord])))
                Sample.anySerializer tally full (str "Ana")
                [ Dashboard.Typed (str "Extrae.");
                  Dashboard.Picked
                    (Some (mkFile (str "casos.txt") Sample.twoLines));
                  Dashboard.Clicked; Dashboard.Reopened 0; Dashboard.Clicked ]
                (Dashboard.initial,
                 {[ Dashboard.historyKey (str "Ana") := tally [] ]}) in
     (length (Dashboard.history w.1), w.2 !! Dashboard.historyKey (str "Ana")))
    = (2, Some []).
Proof. split; vm_compute; reflexivity. Qed.

Lemma blocked_without_file
  (model : jsstring -> outcome Error value) (serialize : value -> jsstring)
  (stringifyHistory : list EvaluationRecord -> jsstring)
  (takes : Storage -> jsstring -> jsstring -> bool)
  (studentName : jsstring) (events : list Dashboard.Event)
  (st : Dashboard.State) (storage : Storage) :
  forallb (λ ev, negb (picksFile ev)) events = true →
  Dashboard.fileContent st = None →
  Dashboard.history
    (Dashboard.handleAll model serialize stringifyHistory takes studentName
       events (st, storage)).1 = Dashboard.history st
  ∧ (Dashboard.handleAll model serialize stringifyHistory takes studentName
       events (st, storage)).2 = storage
  ∧ Dashboard.fileContent
      (Dashboard.handleAll model serialize stringifyHistory takes studentName
         events (st, storage)).1 = None.
Proof.
  intros Hev Hf. induction events as [|ev events IH] using rev_ind; [done|].
  rewrite forallb_app in Hev. apply andb_true_iff in Hev as [Hev Hlast].
  destruct (IH Hev) as (Hh & Hs & Hnone). rewrite handleAll_snoc.
  destruct (Dashboard.handleAll _ _ _ _ _ events (st, storage))
    as [st1 storage1].
  simpl in *. destruct ev as [text|[f|]| | |row]; simpl in *; try done.
  - unfold Dashboard.runEvaluation. by rewrite Hnone.
  - unfold Dashboard.reopen. by destruct (Dashboard.history st1 !! row).
Qed.

Lemma blocked_without_instruction
  (model : jsstring -> outcome Error value) (serialize : value -> jsstring)
  (stringifyHistory : list EvaluationRecord -> jsstring)
  (takes : Storage -> jsstring -> jsstring -> bool)
  (studentName : jsstring) (events : list Dashboard.Event)
  (st : Dashboard.State) (storage : Storage) :
  forallb (λ ev, negb (bringsInstruction ev)) events = true →
  Dashboard.instruction st = [] →
  Dashboard.history
    (Dashboard.handleAll model serialize stringifyHistory takes studentName
       events (st, storage)).1 = Dashboard.history st
  ∧ (Dashboard.handleAll model serialize stringifyHistory takes studentName
       events (st, storage)).2 = storage
  ∧ Dashboard.instruction
      (Dashboard.handleAll model serialize stringifyHistory takes studentName
         events (st, storage)).1 = [].
Proof.
  intros Hev Hi. induction events as [|ev events IH] using rev_ind; [done|].
  rewrite forallb_app in Hev. apply andb_true_iff in Hev as [Hev Hlast].
  destruct (IH Hev) as (Hh & Hs & Hnone). rewrite handleAll_snoc.
  destruct (Dashboard.handleAll _ _ _ _ _ events (st, storage))
    as [st1 storage1].
  simpl in *. destruct ev as [text|[f|]| | |row]; simpl in *; try done.
  unfold Dashboard.runEvaluation. rewrite Hnone.
  by destruct (Dashboard.fileContent st1).
Qed.

(** X17. After a restart nothing can be run until a file is picked, and
    until an instruction is back in the text area, typed or brought back
    by reopening a past attempt: as long as one of the two has not
    happened, clicks leave the history and the storage as they were. *)
Theorem restart_blocks_runs_until_inputs_return
  (model : jsstring -> outcome Error value) (serialize : value -> jsstring)
  (stringifyHistory : list EvaluationRecord -> jsstring)
  (takes : Storage -> jsstring -> jsstring -> bool)
  (studentName : jsstring) (events : list Dashboard.Event)
  (st : Dashboard.State) (storage : Storage) :
  forallb (λ ev, negb (picksFile ev)) events = true
  ∨ forallb (λ ev, negb (bringsInstruction ev)) events = true →
  Dashboard.history
    (Dashboard.handleAll model serialize stringifyHistory takes studentName
       (Dashboard.Restarted :: events) (st, storage)).1
  = Dashboard.history st
  ∧ (Dashboard.handleAll model serialize stringifyHistory takes studentName
       (Dashboard.Restarted :: events) (st, storage)).2 = storage.
Proof.
  intros [Hev | Hev].
  - destruct (blocked_without_file model serialize stringifyHistory takes
                studentName events (Dashboard.startNewAttempt st) storage
                Hev eq_refl) as (Hh & Hs & _).
    done.
  - destruct (blocked_without_instruction model serialize stringifyHistory
                takes studentName events (Dashboard.startNewAttempt st)
                storage Hev eq_refl) as (Hh & Hs & _).
    done.
Qed.

Lemma restart_blocks_runs_until_inputs_return_witness :
  Dashboard.history
    (Dashboard.handleAll
       (Sample.replies (VString (Sample.arrayText [Sample.appRecord])))
       Sample.anySerializer tally roomy (str "Ana")
       [ Dashboard.Restarted; Dashboard.Reopened 0; Dashboard.Clicked;
         Dashboard.Typed (str "Extrae."); Dashboard.Picked None;
         Dashboard.Clicked ]
       (Dashboard.mkState (str "Extrae.") (Some Sample.twoLines)
          (Some (str "casos.txt")) false None
          [mkRecord (str "Antes.") 0 0 (mkOutput (str "[]") [])],
        ∅)).1
  = [mkRecord (str "Antes.") 0 0 (mkOutput (str "[]") [])]
  ∧ (Dashboard.handleAll
       (Sample.replies (VString (Sample.arrayText [Sample.appRecord])))
       Sample.anySerializer tally roomy (str "Ana")
       [ Dashboard.Restarted; Dashboard.Reopened 0; Dashboard.Clicked;
         Dashboard.Typed (str "Extrae."); Dashboard.Picked None;
         Dashboard.Clicked ]
       (Dashboard.mkState (str "Extrae.") (Some Sample.twoLines)
          (Some (str "casos.txt")) false None
          [mkRecord (str "Antes.") 0 0 (mkOutput (str "[]") [])],
        ∅)).2 = ∅.
Proof.
  apply (restart_blocks_runs_until_inputs_return
           (Sample.replies (VString (Sample.arrayText [Sample.appRecord])))
           Sample.anySerializer tally roomy (str "Ana")
           [ Dashboard.Reopened 0; Dashboard.Clicked;
             Dashboard.Typed (str "Extrae."); Dashboard.Picked None;
             Dashboard.Clicked ]).
  left. reflexivity.
Defined.

(** Reopening a past attempt after a restart and picking a file again is
    enough for a run: no typing is needed. *)
Example reopened_attempt_can_be_run_again :
  length
    (Dashboard.history
       (Dashboard.handleAll
          (Sample.replies (VString (Sample.arrayText [Sample.appRecord])))
          Sample.anySerializer tally roomy (str "Ana")
          [ Dashboard.Restarted;
            Dashboard.Picked (Some (mkFile (str "casos.txt") Sample.twoLines));
            Dashboard.Reopened 0; Dashboard.Clicked ]
          (Dashboard.initial
             , ∅)).1) = 0
  ∧ length
      (Dashboard.history
         (Dashboard.handleAll
            (Sample.replies (VString (Sample.arrayText [Sample.appRecord])))
            Sample.anySerializer tally roomy (str "Ana")
            [ Dashboard.Restarted;
              Dashboard.Picked
                (Some (mkFile (str "casos.txt") Sample.twoLines));
              Dashboard.Reopened 0; Dashboard.Clicked ]
            (Dashboard.mkState [] None None false None
               [mkRecord (str "Antes.") 0 0 (mkOutput (str "[]") [])],
             ∅)).1) = 2.
Proof. split; vm_compute; reflexivity. Qed.

(** ** The login form and the page *)

Lemma handleSubmit_Some (name n : jsstring) :
  handleSubmit name = Some n → n = trim name ∧ 3 ≤ length n.
Proof.
  unfold handleSubmit. destruct (3 <=? length (trim name)) eqn:Hlen; [|done].
  intros [= <-]. by apply Nat.leb_le in Hlen.
Qed.

(** X18. The login form hands over a name only when it has, once
    trimmed, at least three code units, and hands it over trimmed:
    trimming the name again gives the name itself. *)
Theorem submitted_name_is_trimmed (name : jsstring) :
  match handleSubmit name with
  | Some n => n = trim name ∧ 3 ≤ length n ∧ trim n = n
  | None => length (trim name) < 3
  end.
Proof.
  unfold handleSubmit.
  destruct (3 <=? length (trim name)) eqn:Hlen.
  - apply Nat.leb_le in Hlen. split; [done|]. split; [done|].
    apply trim_idempotent.
  - apply Nat.leb_gt in Hlen. done.
Qed.

Example names_at_the_form :
  map handleSubmit
    [ str "  Ana  "; str " Al "; [9; 32; 160]%N; str "Juan P" ++ [233%N]
      ++ str "rez" ++ [10%N] ]
  = [ Some (str "Ana"); None; None; Some (str "Juan P" ++ [233%N] ++ str "rez") ].
Proof. reflexivity. Qed.

(** X19. A name the form handed over survives a reload of the page:
    after the login the storage alone brings a freshly mounted page to
    that student's dashboard, and after the logout to the login form. *)
Theorem login_survives_a_reload (name n : jsstring) (st : Home.State)
  (storage : Storage) :
  handleSubmit name = Some n →
  Home.render (Home.mount Home.initial (Home.handleLogin n st storage).2)
  = Home.DashboardOf n
  ∧ Home.render
      (Home.mount Home.initial
         (Home.handleLogout (Home.handleLogin n st storage).1
            (Home.handleLogin n st storage).2).2)
    = Home.LoginForm
  ∧ Home.render Home.initial = Home.Nothing.
Proof.
  intros Hs. apply handleSubmit_Some in Hs as [_ Hlen].
  destruct n as [|c n]; [simpl in Hlen; lia|].
  unfold Home.mount, Home.handleLogin, Home.handleLogout. simpl.
  rewrite lookup_insert_eq, lookup_delete_eq. done.
Qed.

Lemma login_survives_a_reload_witness :
  Home.render
    (Home.mount Home.initial
       (Home.handleLogin (str "Ana") Home.initial
          {[ Dashboard.historyKey (str "Ana") := str "[]" ]}).2)
  = Home.DashboardOf (str "Ana")
  ∧ Home.render
      (Home.mount Home.initial
         (Home.handleLogout
            (Home.handleLogin (str "Ana") Home.initial
               {[ Dashboard.historyKey (str "Ana") := str "[]" ]}).1
            (Home.handleLogin (str "Ana") Home.initial
               {[ Dashboard.historyKey (str "Ana") := str "[]" ]}).2).2)
    = Home.LoginForm
  ∧ Home.render Home.initial = Home.Nothing.
Proof.
  apply (login_survives_a_reload (str "  Ana ") (str "Ana")). reflexivity.
Defined.

(** X20. Logging in and out touches the name key only: the stored
    histories of all students are as they were. *)
Theorem login_leaves_the_histories_alone (name student : jsstring)
  (st : Home.State) (storage : Storage) :
  (Home.handleLogin name st storage).2 !! Dashboard.historyKey student
  = storage !! Dashboard.historyKey student
  ∧ (Home.handleLogout st storage).2 !! Dashboard.historyKey student
    = storage !! Dashboard.historyKey student.
Proof.
  assert (Hne : Home.nameKey ≠ Dashboard.historyKey student).
  { unfold Home.nameKey, Dashboard.historyKey. discriminate. }
  unfold Home.handleLogin, Home.handleLogout. simpl.
  by rewrite lookup_insert_ne, lookup_delete_ne.
Qed.

(** ** The line-by-line variant, next to the flow *)

(** X22. In the variant, a response that is not a JSON array (text that
    is not JSON, or JSON of another kind such as a lone object) has no
    part in the verdicts: they are those of the lines of the input text,
    each parsed as JSON and validated, whatever the response was. *)
Theorem variant_judges_the_input_when_the_response_is_no_array
  (model : jsstring -> outcome Error jsstring)
  (input : ExtractAndValidateFeedbackInput) (rawResponse : jsstring)
  (e : LineByLine.Caught) :
  model (LineByLine.renderPrompt input) = Ret rawResponse →
  LineByLine.parseWhole rawResponse = Throw e →
  LineByLine.extractAndValidateFeedback model input
  = Ret (mkOutput rawResponse
           (imap (LineByLine.alignLine
                    (map LineByLine.parseLine (split 10 (textContent input))))
              (split 10 (textContent input)))).
Proof.
  intros Hm Hp.
  unfold LineByLine.extractAndValidateFeedback,
    LineByLine.extractAndValidateFeedbackFlow, LineByLine.extractFeedbackPrompt.
  rewrite Hm. simpl.
  by rewrite (variant_fallback_reads_the_input _ _ e Hp).
Qed.

Lemma variant_judges_the_input_when_the_response_is_no_array_witness :
  LineByLine.extractAndValidateFeedback (λ _, Ret Sample.appRecord)
    (mkInput (str "x") Sample.twoLines)
  = Ret (mkOutput Sample.appRecord
           (imap (LineByLine.alignLine
                    (map LineByLine.parseLine (split 10 Sample.twoLines)))
              (split 10 Sample.twoLines))).
Proof.
  apply (variant_judges_the_input_when_the_response_is_no_array
           (λ _, Ret Sample.appRecord) (mkInput (str "x") Sample.twoLines)
           Sample.appRecord LineByLine.CaughtTypeError).
  - reflexivity.
  - vm_compute. reflexivity.
Defined.

Lemma variant_verdict_on_array (items : list value) (i : nat)
  (line : jsstring) :
  LineByLine.alignLine (map LineByLine.parseOrNull items) i line
  = lineVerdict (Zod.parse FeedbackSchema) items i line.
Proof.
  unfold LineByLine.alignLine, lineVerdict, index.
  change (map LineByLine.parseOrNull items) with (LineByLine.parseOrNull <$> items).
  rewrite list_lookup_fmap.
  destruct (items !! i) as [c|]; [|done].
  cbn -[Zod.parse FeedbackSchema].
  unfold LineByLine.parseOrNull, LineByLine.or_null.
  destruct (Zod.parse FeedbackSchema c) as [r|] eqn:Hp.
  - pose proof (FeedbackSchema_parse_truthy _ _ Hp) as Htc.
    apply FeedbackSchema_parse_result in Hp as (_ & Htr & _).
    rewrite Htc, Htr. cbn. by rewrite Htr.
  - cbn. by destruct (truthy c).
Qed.

(** X23. Validating every candidate and then aligning, as the variant
    does, gives what aligning and then validating gives, as the flow
    does: on a response that is a JSON array and a text without blank
    lines the two versions return the same output. *)
Theorem variant_and_flow_agree_on_arrays
  (model : jsstring -> outcome Error value) (serialize : value -> jsstring)
  (model' : jsstring -> outcome Error jsstring)
  (input : ExtractAndValidateFeedbackInput) (rawResponse : jsstring)
  (items : list value) :
  model (renderPrompt input) = Ret (VString rawResponse) →
  model' (LineByLine.renderPrompt input) = Ret rawResponse →
  JSON.parse rawResponse = Ret (VArray items) →
  nonBlankLines (textContent input) = split 10 (textContent input) →
  LineByLine.extractAndValidateFeedback model' input
  = extractAndValidateFeedback model serialize input.
Proof.
  intros Hm Hm' Hp Hlines.
  assert (Hj : jsonResultsOf (VString rawResponse) = Ret items).
  { unfold jsonResultsOf. by rewrite Hp. }
  rewrite (entry_on_output _ serialize _ _ _ Hm Hj).
  unfold LineByLine.extractAndValidateFeedback,
    LineByLine.extractAndValidateFeedbackFlow, LineByLine.extractFeedbackPrompt.
  rewrite Hm'. simpl. rewrite textLinesOf_nonBlank, Hlines.
  unfold LineByLine.jsonResultsOf, LineByLine.parseWhole. rewrite Hp.
  do 2 f_equal. apply imap_ext. intros j line _. apply variant_verdict_on_array.
Qed.

Lemma variant_and_flow_agree_on_arrays_witness :
  LineByLine.extractAndValidateFeedback
    (λ _, Ret (Sample.arrayText [str "null"; Sample.tellerRecord; str "0"]))
    (mkInput (str "x") Sample.twoLines)
  = extractAndValidateFeedback
      (Sample.replies
         (VString (Sample.arrayText [str "null"; Sample.tellerRecord; str "0"])))
      Sample.anySerializer (mkInput (str "x") Sample.twoLines).
Proof.
  apply (variant_and_flow_agree_on_arrays
           (Sample.replies
              (VString (Sample.arrayText
                          [str "null"; Sample.tellerRecord; str "0"])))
           Sample.anySerializer
           (λ _, Ret (Sample.arrayText [str "null"; Sample.tellerRecord; str "0"]))
           (mkInput (str "x") Sample.twoLines)
           (Sample.arrayText [str "null"; Sample.tellerRecord; str "0"])
           [ VNull; Sample.record (str "Cajero") (str "Odio") [Atencion] true;
             VNumber (mkNumber false 0 0) ]).
  - reflexivity.
  - reflexivity.
  - vm_compute. reflexivity.
  - reflexivity.
Defined.

(** ** The simulator variant, next to the flow *)

(** X24. The version with the simulator prompt differs from the flow in
    its prompt and in the text of its diagnostic only: when the two
    models behave alike on their prompts, an answer gives the same output
    in both, and a fault gives the same all-failing results, under the
    variant's own diagnostic. *)
Theorem simulator_and_flow_agree
  (model model' : jsstring -> outcome Error value)
  (serialize : value -> jsstring)
  (input : ExtractAndValidateFeedbackInput) :
  model' (Simulator.renderPrompt input) = model (renderPrompt input) →
  match model (renderPrompt input) with
  | Ret _ =>
      Simulator.extractAndValidateFeedback model' serialize input
      = extractAndValidateFeedback model serialize input
  | Throw error =>
      Simulator.extractAndValidateFeedback model' serialize input
      = Ret (mkOutput
               (str "Error cr" ++ [237%N] ++ str "tico en el modelo: "
                ++ match message error with
                   | [] => str "Sin respuesta del agente"
                   | c :: m => c :: m
                   end)
               (map (λ line, mkLineResult line VNull Failure)
                  (nonBlankLines (textContent input))))
      ∧ extractAndValidateFeedback model serialize input
        = Ret (mkOutput (diagnostic error)
                 (map (λ line, mkLineResult line VNull Failure)
                    (nonBlankLines (textContent input))))
  end.
Proof.
  intros Hsame.
  unfold Simulator.extractAndValidateFeedback,
    Simulator.extractAndValidateFeedbackFlow, Simulator.extractFeedbackPrompt.
  rewrite Hsame.
  destruct (model (renderPrompt input)) as [output|error] eqn:Hm.
  - destruct (jsonResultsOf_returns output) as [js Hj].
    rewrite (entry_on_output _ serialize _ _ _ Hm Hj). simpl.
    rewrite Hj. simpl. by rewrite alignLines_verdicts.
  - rewrite (entry_on_fault _ serialize _ _ Hm), textLinesOf_nonBlank.
    split; [|done]. simpl. by destruct (message error).
Qed.

Lemma simulator_and_flow_agree_witness :
  Simulator.extractAndValidateFeedback
    (Sample.replies (VString (Sample.arrayText [Sample.appRecord])))
    Sample.anySerializer (mkInput (str "x") Sample.twoLines)
  = extractAndValidateFeedback
      (Sample.replies (VString (Sample.arrayText [Sample.appRecord])))
      Sample.anySerializer (mkInput (str "x") Sample.twoLines).
Proof.
  apply (simulator_and_flow_agree
           (Sample.replies (VString (Sample.arrayText [Sample.appRecord])))
           (Sample.replies (VString (Sample.arrayText [Sample.appRecord])))
           Sample.anySerializer (mkInput (str "x") Sample.twoLines)).
  reflexivity.
Defined.

(** ** The two versions of the caller *)

(** X25. The other version of [runEvaluation] takes the instruction as
    typed: on an instruction without white space around it the two
    versions return the same record, and an instruction of white space
    only, which the trimming version turns down, is sent to the model as
    it is. *)
Theorem untrimmed_caller_agrees_on_trimmed_instructions
  (model : jsstring -> outcome Error value) (serialize : value -> jsstring)
  (systemInstruction : jsstring) (fileContent : option jsstring) :
  (trim systemInstruction = systemInstruction →
   runEvaluation_untrimmed model serialize systemInstruction fileContent
   = runEvaluation model serialize systemInstruction fileContent)
  ∧ (systemInstruction ≠ [] → trim systemInstruction = [] →
     ∀ content, content ≠ [] →
       runEvaluation model serialize systemInstruction (Some content) = None
       ∧ ∃ record,
           runEvaluation_untrimmed model serialize systemInstruction
             (Some content) = Some record
           ∧ record_systemInstruction record = systemInstruction
           ∧ runEvaluation_untrimmed
               (λ _, model (renderPrompt (mkInput systemInstruction content)))
               serialize systemInstruction (Some content) = Some record).
Proof.
  split.
  - intros Ht. unfold runEvaluation_untrimmed, runEvaluation.
    by rewrite Ht.
  - intros Hs Ht content Hc. unfold runEvaluation_untrimmed, runEvaluation.
    rewrite Ht. split; [done|].
    destruct systemInstruction as [|c s]; [done|].
    destruct content as [|d content]; [done|].
    assert (Hsame :
      extractAndValidateFeedback
        (λ _, model (renderPrompt (mkInput (c :: s) (d :: content))))
        serialize (mkInput (c :: s) (d :: content))
      = extractAndValidateFeedback model serialize
          (mkInput (c :: s) (d :: content))) by done.
    rewrite Hsame.
    destruct (entry_returns model serialize (mkInput (c :: s) (d :: content)))
      as (out & -> & _).
    eexists. done.
Qed.

(** ** The variant keeps every line *)

(** X21. The variant answers for every line of the text, blank ones
    included, so that a blank line takes up a candidate's position: its
    results are as many as the pieces the text falls into at its line
    feeds, and their texts joined by line feeds are the text itself. *)
Theorem variant_has_a_result_for_every_line
  (model : jsstring -> outcome Error jsstring)
  (input : ExtractAndValidateFeedbackInput) (rawResponse : jsstring) :
  model (LineByLine.renderPrompt input) = Ret rawResponse →
  ∃ results,
    LineByLine.extractAndValidateFeedback model input
    = Ret (mkOutput rawResponse results)
    ∧ length results = length (split 10 (textContent input))
    ∧ unlines (map originalText results) = textContent input
    ∧ ∀ i line,
        split 10 (textContent input) !! i = Some line →
        results !! i
        = Some (LineByLine.alignLine
                  (LineByLine.jsonResultsOf rawResponse
                     (split 10 (textContent input))) i line).
Proof.
  intros Hm.
  unfold LineByLine.extractAndValidateFeedback,
    LineByLine.extractAndValidateFeedbackFlow, LineByLine.extractFeedbackPrompt.
  rewrite Hm. simpl. eexists. split; [done|].
  split; [by rewrite length_imap|]. split.
  - transitivity (unlines (split 10 (textContent input)));
      [|apply unlines_split].
    f_equal. apply list_eq. intros j.
    rewrite list_lookup_fmap, list_lookup_imap.
    by destruct (split 10 (textContent input) !! j).
  - intros i line Hl. by rewrite list_lookup_imap, Hl.
Qed.

Lemma variant_has_a_result_for_every_line_witness :
  ∃ results,
    LineByLine.extractAndValidateFeedback
      (λ _, Ret (Sample.arrayText [Sample.appRecord; Sample.tellerRecord]))
      (mkInput (str "x") Sample.withBlankLine)
    = Ret (mkOutput (Sample.arrayText [Sample.appRecord; Sample.tellerRecord])
             results)
    ∧ length results = length (split 10 Sample.withBlankLine)
    ∧ unlines (map originalText results) = Sample.withBlankLine
    ∧ ∀ i line,
        split 10 Sample.withBlankLine !! i = Some line →
        results !! i
        = Some (LineByLine.alignLine
                  (LineByLine.jsonResultsOf
                     (Sample.arrayText [Sample.appRecord; Sample.tellerRecord])
                     (split 10 Sample.withBlankLine)) i line).
Proof.
  apply (variant_has_a_result_for_every_line
           (λ _, Ret (Sample.arrayText [Sample.appRecord; Sample.tellerRecord]))
           (mkInput (str "x") Sample.withBlankLine)
           (Sample.arrayText [Sample.appRecord; Sample.tellerRecord])).
  reflexivity.
Defined.

Example variant_blank_line_takes_a_candidate :
  LineByLine.extractAndValidateFeedback
    (λ _, Ret (Sample.arrayText [Sample.appRecord; Sample.tellerRecord]))
    (mkInput (str "x") Sample.withBlankLine)
  = Ret (mkOutput (Sample.arrayText [Sample.appRecord; Sample.tellerRecord])
           [ mkLineResult (str "Great app")
               (Sample.record (str "App") (str "Amor") [str "App"] false)
               Success;
             mkLineResult []
               (Sample.record (str "Cajero") (str "Odio") [Atencion] true)
               Success;
             failureLine (str "Rude teller") ]).
Proof. vm_compute. reflexivity. Qed.

Example instruction_of_white_space_only :
  runEvaluation (Sample.replies (VArray [])) Sample.anySerializer
    [32; 10; 9]%N (Some Sample.twoLines) = None
  ∧ runEvaluation_untrimmed Sample.echoes Sample.anySerializer
      [32; 10; 9]%N (Some Sample.twoLines)
    = Some (mkRecord [32; 10; 9]%N 0 2
              (mkOutput
                 (renderPrompt (mkInput [32; 10; 9]%N Sample.twoLines))
                 [ failureLine (str "Great app");
                   failureLine (str "Rude teller") ])).
Proof. split; vm_compute; reflexivity. Qed.
